(** * collect_ranked_stats: a Rocq model of the ranked-data pipeline

    The development embeds [src/collect_ranked_stats.py] function by
    function.  Python values are a small JSON-like inductive type, a pandas
    [DataFrame] is an ordered list of labelled columns over a range index,
    exceptions are values of an error monad, and printing and file output
    go through an explicit world state. *)

From Stdlib Require Import String Ascii List ZArith Bool Arith Lia.
From Stdlib Require Import Permutation DecimalString.
Import ListNotations.

Local Open Scope string_scope.
Local Open Scope list_scope.

Set Implicit Arguments.
Set Warnings "-register-all".

(* ================================================================== *)
(** * Python values *)
(* ================================================================== *)

(** What the Riot API hands back after JSON decoding.  [PNull] stands for
    pandas' missing value: [None] and [NaN] are not told apart, as neither
    the code nor pandas' null handling distinguishes them here.  Numbers are
    integers, as all identifiers in the match records are; a column that
    pandas stores as floats holds the same numbers. *)
Inductive pyobj : Type :=
| PNull
| PBool (b : bool)
| PInt (n : Z)
| PStr (s : string)
| PList (items : list pyobj)
| PDict (entries : list (string * pyobj)).

(** A Python [dict] with string keys, in insertion order. *)
Definition dict := list (string * pyobj).

Definition is_dict (v : pyobj) : bool :=
  match v with PDict _ => true | _ => false end.

Fixpoint dict_get (k : string) (d : dict) : option pyobj :=
  match d with
  | [] => None
  | (k', v) :: rest => if String.eqb k k' then Some v else dict_get k rest
  end.

(** [d[k] = v]: overwrite in place when the key exists, else append. *)
Fixpoint dict_set (d : dict) (k : string) (v : pyobj) : dict :=
  match d with
  | [] => [(k, v)]
  | (k', v') :: rest =>
      if String.eqb k k' then (k', v) :: rest else (k', v') :: dict_set rest k v
  end.

(** [{**a, **b}] *)
Definition dict_merge (a b : dict) : dict :=
  fold_left (fun acc kv => dict_set acc (fst kv) (snd kv)) b a.

Definition dict_keys (d : dict) : list string := map fst d.

Definition has_key (k : string) (d : dict) : bool :=
  match dict_get k d with Some _ => true | None => false end.

(** [d.get(k, NaN)] as the frame constructor uses it. *)
Definition dict_get_default (k : string) (d : dict) : pyobj :=
  match dict_get k d with Some v => v | None => PNull end.

(* ================================================================== *)
(** * Exceptions and the error monad *)
(* ================================================================== *)

(** Column labels: strings in the main frame, positions in the frames that
    [json_normalize] builds from lists. *)
Inductive label : Type :=
| LStr (s : string)
| LInt (n : nat).

Definition label_eqb (a b : label) : bool :=
  match a, b with
  | LStr s, LStr t => String.eqb s t
  | LInt n, LInt m => Nat.eqb n m
  | _, _ => false
  end.

Inductive exn : Type :=
| KeyError (missing : list label)
| ValueError
| IndexError
| TypeError
| AttributeError
| UnboundLocalError (name : string)
| ApiError (status_code : Z)
| SystemExit (code : Z).

Inductive res (A : Type) : Type :=
| Ok (a : A)
| Raise (e : exn).
Arguments Ok {A} a.
Arguments Raise {A} e.

Definition bind {A B : Type} (m : res A) (k : A -> res B) : res B :=
  match m with
  | Ok a => k a
  | Raise e => Raise e
  end.

Notation "x <- m ;; k" := (bind m (fun x => k))
  (at level 61, m at next level, right associativity).

Fixpoint mapM {A B : Type} (f : A -> res B) (l : list A) : res (list B) :=
  match l with
  | [] => Ok []
  | a :: rest => b <- f a ;; bs <- mapM f rest ;; Ok (b :: bs)
  end.

(* ================================================================== *)
(** * Strings *)
(* ================================================================== *)

Definition is_lower (c : ascii) : bool :=
  (97 <=? nat_of_ascii c)%nat && (nat_of_ascii c <=? 122)%nat.

Definition upper_char (c : ascii) : ascii :=
  if is_lower c then ascii_of_nat (nat_of_ascii c - 32) else c.

(** [str.upper()] on ASCII text: the lower-case letters are mapped, every
    other character is kept. *)
Fixpoint upper (s : string) : string :=
  match s with
  | EmptyString => EmptyString
  | String c rest => String (upper_char c) (upper rest)
  end.

(** The ASCII characters [str.strip()] removes: tab to carriage return,
    the four separators 28..31, and space. *)
Definition is_space (c : ascii) : bool :=
  let n := nat_of_ascii c in
  ((9 <=? n) && (n <=? 13) || (28 <=? n) && (n <=? 32))%nat.

Fixpoint lstrip (s : string) : string :=
  match s with
  | EmptyString => EmptyString
  | String c rest => if is_space c then lstrip rest else s
  end.

Fixpoint rstrip (s : string) : string :=
  match s with
  | EmptyString => EmptyString
  | String c rest =>
      match rstrip rest with
      | EmptyString => if is_space c then EmptyString else String c EmptyString
      | r => String c r
      end
  end.

(** [str.strip()] on ASCII text. *)
Definition strip (s : string) : string := rstrip (lstrip s).

(** Every character of the string is below 128. *)
Fixpoint is_ascii (s : string) : bool :=
  match s with
  | EmptyString => true
  | String c rest => (nat_of_ascii c <? 128)%nat && is_ascii rest
  end.

(** [sep.join(parts)] *)
Fixpoint join (sep : string) (parts : list string) : string :=
  match parts with
  | [] => EmptyString
  | [p] => p
  | p :: rest => (p ++ sep ++ join sep rest)%string
  end.

Definition str_mem (s : string) (l : list string) : bool :=
  existsb (String.eqb s) l.

Definition label_mem (a : label) (l : list label) : bool :=
  existsb (label_eqb a) l.

(** [str(label)] *)
Definition label_str (l : label) : string :=
  match l with
  | LStr s => s
  | LInt n => NilEmpty.string_of_uint (Nat.to_uint n)
  end.

(* ================================================================== *)
(** * Regular expressions *)
(* ================================================================== *)

(** The fragment of Python's [re] syntax the pipeline's patterns use.
    Matching is by Brzozowski derivatives; [re_search] is [re.search]:
    the pattern may match anywhere inside the subject. *)
Inductive regex : Type :=
| Void
| Eps
| Chr (c : ascii)
| Dot
| Class (lo hi : ascii)
| Cat (r s : regex)
| Alt (r s : regex)
| Star (r : regex).

Definition newline : ascii := ascii_of_nat 10.

Definition in_class (lo hi c : ascii) : bool :=
  (nat_of_ascii lo <=? nat_of_ascii c)%nat && (nat_of_ascii c <=? nat_of_ascii hi)%nat.

Fixpoint nullable (r : regex) : bool :=
  match r with
  | Void => false
  | Eps => true
  | Chr _ => false
  | Dot => false
  | Class _ _ => false
  | Cat r s => nullable r && nullable s
  | Alt r s => nullable r || nullable s
  | Star _ => true
  end.

Fixpoint deriv (c : ascii) (r : regex) : regex :=
  match r with
  | Void => Void
  | Eps => Void
  | Chr c' => if Ascii.eqb c c' then Eps else Void
  | Dot => if Ascii.eqb c newline then Void else Eps
  | Class lo hi => if in_class lo hi c then Eps else Void
  | Cat r s =>
      if nullable r then Alt (Cat (deriv c r) s) (deriv c s)
      else Cat (deriv c r) s
  | Alt r s => Alt (deriv c r) (deriv c s)
  | Star r => Cat (deriv c r) (Star r)
  end.

Fixpoint matches (r : regex) (s : string) : bool :=
  match s with
  | EmptyString => nullable r
  | String c rest => matches (deriv c r) rest
  end.

(** Any character at all, newline included. *)
Definition any_char : regex := Alt Dot (Chr newline).

Definition re_search (r : regex) (s : string) : bool :=
  matches (Cat (Star any_char) (Cat r (Star any_char))) s.

(** A literal run of characters. *)
Fixpoint word (s : string) : regex :=
  match s with
  | EmptyString => Eps
  | String c rest => Cat (Chr c) (word rest)
  end.

(** [\d], on ASCII text. *)
Definition digit : regex := Class "0" "9".

(* ================================================================== *)
(** * pandas: Series and DataFrame *)
(* ================================================================== *)

Definition Series := list pyobj.

(** A frame over a range index [0 .. nrows-1]: labelled columns in order.
    pandas keeps every column at the length of the index; [wf_frame] below
    states it, together with the labels being distinct. *)
Record DataFrame : Type := mkFrame {
  nrows : nat;
  cols : list (label * Series)
}.

(** [df.columns] / [list(df)] *)
Definition columns (df : DataFrame) : list label := map fst (cols df).

(** [pd.DataFrame()] *)
Definition empty_frame : DataFrame := mkFrame 0 [].

Fixpoint find_col (l : label) (cs : list (label * Series)) : option Series :=
  match cs with
  | [] => None
  | (l', s) :: rest => if label_eqb l l' then Some s else find_col l rest
  end.

(** [df[l]] *)
Definition getitem (df : DataFrame) (l : label) : res Series :=
  match find_col l (cols df) with
  | Some s => Ok s
  | None => Raise (KeyError [l])
  end.


Fixpoint nodup_labels (ls : list label) : bool :=
  match ls with
  | [] => true
  | l :: rest => negb (label_mem l rest) && nodup_labels rest
  end.

Definition wf_frame (df : DataFrame) : bool :=
  nodup_labels (columns df) &&
  forallb (fun c => Nat.eqb (length (snd c)) (nrows df)) (cols df).

(** ** Construction from Python lists *)

Definition add_unique (seen : list string) (k : string) : list string :=
  if str_mem k seen then seen else seen ++ [k].

(** The union of the records' keys, in order of first appearance. *)
Definition unique_keys (ds : list dict) : list string :=
  fold_left (fun seen d => fold_left add_unique (dict_keys d) seen) ds [].

(** [DataFrame(list of dicts)]: one row per dict, a missing key is null. *)
Definition from_records (ds : list dict) : DataFrame :=
  mkFrame (length ds)
    (map (fun k => (LStr k, map (dict_get_default k) ds)) (unique_keys ds)).

Definition max_width (rows : list (list pyobj)) : nat :=
  fold_left (fun k r => Nat.max k (length r)) rows 0.

(** [DataFrame(list of lists)]: positional columns, short rows padded. *)
Definition from_lists (rows : list (list pyobj)) : DataFrame :=
  mkFrame (length rows)
    (map (fun j => (LInt j, map (fun r => nth j r PNull) rows))
         (seq 0 (max_width rows))).

(** [list(x)] for an element of a list-of-lists constructor argument:
    a list is itself, a dict iterates over its keys. *)
Definition as_row (v : pyobj) : res (list pyobj) :=
  match v with
  | PList l => Ok l
  | PDict d => Ok (map PStr (dict_keys d))
  | _ => Raise TypeError
  end.

(** [x.keys()] succeeds on dicts only. *)
Definition as_record (v : pyobj) : res dict :=
  match v with
  | PDict d => Ok d
  | _ => Raise AttributeError
  end.

(** [DataFrame(data)] for a list: the first element decides between the
    list-of-lists and the list-of-dicts reading.  [json_normalize] passes
    dicts and lists only, so the last case does not arise. *)
Definition frame_of_list (data : list pyobj) : res DataFrame :=
  match data with
  | [] => Ok empty_frame
  | PList _ :: _ => rows <- mapM as_row data ;; Ok (from_lists rows)
  | PDict _ :: _ => ds <- mapM as_record data ;; Ok (from_records ds)
  | _ => Raise TypeError
  end.

(** ** [pd.json_normalize]

    The call takes no option here, so pandas (1.3 and later) goes through
    [_simple_json_normalize] and hands the result to the [DataFrame]
    constructor. *)

(** The key of a nested entry: [f"{key_string}.{key}"], without the
    leading separator at the top level. *)
Definition join_key (key_string key : string) : string :=
  if String.eqb key_string "" then key else (key_string ++ "." ++ key)%string.

(** pandas' [_normalise_json]: nested dicts are walked depth first and
    every non-dict value is stored under its dotted path. *)
Fixpoint normalise_json (data : pyobj) (key_string : string)
    (normalized_dict : dict) : dict :=
  match data with
  | PDict entries =>
      (fix items (es : list (string * pyobj)) (acc : dict) : dict :=
         match es with
         | [] => acc
         | (key, value) :: rest =>
             items rest (normalise_json value (join_key key_string key) acc)
         end) entries normalized_dict
  | _ => dict_set normalized_dict key_string data
  end.

(** pandas' [_normalise_json_ordered]: top-level scalars first, then the
    flattened nested dicts. *)
Definition normalise_json_ordered (data : dict) : dict :=
  let top_dict := filter (fun kv => negb (is_dict (snd kv))) data in
  let nested_dict :=
    normalise_json (PDict (filter (fun kv => is_dict (snd kv)) data)) "" [] in
  dict_merge top_dict nested_dict.

(** pandas' [_simple_json_normalize]: a dict is flattened, a list is
    normalised element by element, anything else becomes [{}]. *)
Fixpoint simple_json_normalize (ds : pyobj) : pyobj :=
  match ds with
  | PDict d => PDict (normalise_json_ordered d)
  | PList rows => PList (map simple_json_normalize rows)
  | _ => PDict []
  end.

(** [pd.json_normalize(data)] for an iterable [data] (a list or a Series);
    a single dict [d] is passed as [[PDict d]], as pandas itself does. *)
Definition json_normalize (data : list pyobj) : res DataFrame :=
  frame_of_list (map simple_json_normalize data).

(** ** Concatenation *)

Definition union_labels (a b : list label) : list label :=
  a ++ filter (fun l => negb (label_mem l a)) b.

Definition column_or_nulls (df : DataFrame) (l : label) : Series :=
  match find_col l (cols df) with
  | Some s => s
  | None => repeat PNull (nrows df)
  end.

(** [pd.concat([a, b], ignore_index=True)]: rows of [b] below those of [a],
    over the union of the columns; a column one side lacks is null there. *)
Definition concat_rows (a b : DataFrame) : DataFrame :=
  mkFrame (nrows a + nrows b)
    (map (fun l => (l, column_or_nulls a l ++ column_or_nulls b l))
         (union_labels (columns a) (columns b))).

Definition pad (n : nat) (s : Series) : Series :=
  s ++ repeat PNull (n - length s).

(** [pd.concat(series_list, axis=1)] for named Series over range indexes. *)
Definition concat_series (named : list (label * Series)) : DataFrame :=
  let n := fold_left Nat.max (map (fun c => length (snd c)) named) 0 in
  mkFrame n (map (fun c => (fst c, pad n (snd c))) named).

(** [pd.concat([a, b], axis=1, join='outer')] over range indexes. *)
Definition concat_columns (a b : DataFrame) : DataFrame :=
  let n := Nat.max (nrows a) (nrows b) in
  mkFrame n (map (fun c => (fst c, pad n (snd c))) (cols a ++ cols b)).

(** ** Column selection, removal, renaming and mapping *)

(** [df.drop(columns=labels)]: every label must exist, otherwise a
    [KeyError] lists those that do not. *)
Definition drop_columns (df : DataFrame) (labels : list label) : res DataFrame :=
  match filter (fun l => negb (label_mem l (columns df))) labels with
  | [] =>
      Ok (mkFrame (nrows df)
            (filter (fun c => negb (label_mem (fst c) labels)) (cols df)))
  | missing => Raise (KeyError missing)
  end.

(** [df.filter(regex=re)]: the columns whose name the pattern is found in. *)
Definition filter_regex (df : DataFrame) (re : regex) : DataFrame :=
  mkFrame (nrows df)
    (filter (fun c => re_search re (label_str (fst c))) (cols df)).

Fixpoint rename_label (mapping : list (label * label)) (l : label) : label :=
  match mapping with
  | [] => l
  | (old, new) :: rest => if label_eqb l old then new else rename_label rest l
  end.

(** [df.rename(columns=mapping)] *)
Definition rename_columns (df : DataFrame) (mapping : list (label * label))
    : DataFrame :=
  mkFrame (nrows df)
    (map (fun c => (rename_label mapping (fst c), snd c)) (cols df)).

(** [df[labels] = df[labels].applymap(f)]: [f] is applied to every cell of
    the selected columns, column by column; the first exception ends it. *)
Definition applymap_on (df : DataFrame) (labels : list label)
    (f : pyobj -> res pyobj) : res DataFrame :=
  cs <- mapM (fun c =>
                if label_mem (fst c) labels
                then s <- mapM f (snd c) ;; Ok (fst c, s)
                else Ok c) (cols df) ;;
  Ok (mkFrame (nrows df) cs).

(** ** Sorting the columns *)

(** [a <= b] on labels of one kind; labels of different kinds do not
    compare in Python. *)
Definition label_leb (a b : label) : res bool :=
  match a, b with
  | LStr s, LStr t => Ok (String.leb s t)
  | LInt n, LInt m => Ok (Nat.leb n m)
  | _, _ => Raise TypeError
  end.

Fixpoint insert_col (c : label * Series) (sorted : list (label * Series))
    : res (list (label * Series)) :=
  match sorted with
  | [] => Ok [c]
  | c' :: rest =>
      le <- label_leb (fst c) (fst c') ;;
      if le then Ok (c :: sorted)
      else r <- insert_col c rest ;; Ok (c' :: r)
  end.

Fixpoint sort_cols (cs : list (label * Series)) : res (list (label * Series)) :=
  match cs with
  | [] => Ok []
  | c :: rest => s <- sort_cols rest ;; insert_col c s
  end.

(** [df.sort_index(axis=1)] *)
Definition sort_index_columns (df : DataFrame) : res DataFrame :=
  cs <- sort_cols (cols df) ;; Ok (mkFrame (nrows df) cs).

(* ================================================================== *)
(** * Input/output *)
(* ================================================================== *)

(** What the process leaves behind: the lines printed and the pickle
    files written (path and content). *)
Record world : Type := mkWorld {
  stdout : list string;
  files : list (string * DataFrame)
}.

Definition IO (A : Type) : Type := world -> world * res A.

Definition ret {A : Type} (a : A) : IO A := fun w => (w, Ok a).

Definition raise {A : Type} (e : exn) : IO A := fun w => (w, Raise e).

Definition lift {A : Type} (r : res A) : IO A := fun w => (w, r).

Definition iobind {A B : Type} (m : IO A) (k : A -> IO B) : IO B :=
  fun w =>
    match m w with
    | (w', Ok a) => k a w'
    | (w', Raise e) => (w', Raise e)
    end.

Notation "x <-- m ;; k" := (iobind m (fun x => k))
  (at level 61, m at next level, right associativity).
Notation "m ;;; k" := (iobind m (fun _ => k))
  (at level 61, right associativity).

(** [print(s)] *)
Definition print (s : string) : IO unit :=
  fun w => (mkWorld (stdout w ++ [s]) (files w), Ok tt).

(** [sys.exit(code)] raises [SystemExit]. *)
Definition sys_exit {A : Type} (code : Z) : IO A := raise (SystemExit code).

(** [df.to_pickle(path)] *)
Definition to_pickle (df : DataFrame) (path : string) : IO unit :=
  fun w => (mkWorld (stdout w) (files w ++ [(path, df)]), Ok tt).

(** [d[k]] on a dict. *)
Definition subscript (d : dict) (k : string) : res pyobj :=
  match dict_get k d with
  | Some v => Ok v
  | None => Raise (KeyError [LStr k])
  end.

(** [argv[i]] *)
Definition argv_at (argv : list string) (i : nat) : res string :=
  match nth_error argv i with
  | Some a => Ok a
  | None => Raise IndexError
  end.

(* ================================================================== *)
(** * The Riot API client *)
(* ================================================================== *)

(** A [MatchDto], reduced to the two lists the pipeline reads:
    [match['metadata']['participants']] and
    [match['info']['participants']]. *)
Record MatchDto : Type := mkMatch {
  metadata_participants : list string;
  info_participants : list dict
}.

(** The three endpoints of [riotwatcher.LolWatcher] in use.  A failed call
    raises, usually [ApiError] with the HTTP status. *)
Record LolWatcher : Type := mkWatcher {
  summoner_by_name : string -> string -> res dict;
  match_matchlist_by_puuid : string -> pyobj -> Z -> res (list string);
  match_by_id : string -> string -> res MatchDto
}.

Definition dquote : string := String (ascii_of_nat 34) EmptyString.
Definition nl : string := String newline EmptyString.

(* ================================================================== *)
(** * collect_ranked_stats.py *)
(* ================================================================== *)

Section Pipeline.

(** [lit.get_name(id, object_type=...)] of [lol_id_tools]. *)
Variable lit_get_name : pyobj -> string -> res pyobj.

(** [str.upper()] and [str.strip()] of the runtime, on any text; on ASCII
    text they are [upper] and [strip] above. *)
Variable str_upper : string -> string.
Variable str_strip : string -> string.

(** The order in which Python iterates over a set of strings; it varies
    from run to run. *)
Variable set_order : list string -> list string.

(** [time.strftime("%Y%m%d-%H%M%S")] at the time of the call. *)
Variable time_str : string.

(** [str(v)] as an f-string formats a value. *)
Variable py_format : pyobj -> string.

(** [check_user_input] *)
Definition check_user_input (argv : list string) : IO unit :=
  if negb (Nat.eqb (length argv) 3) then
    print ("Incorrect number of arguments were provided." ++ nl)%string ;;;
    print "Run the program again with the following arguments:" ;;;
    print ("python collect_ranked_stats.py {region name} {summoner name}" ++ nl)%string ;;;
    print "Example: python collect_ranked_stats.py NA1 Zenîth" ;;;
    sys_exit 2
  else ret tt.

Definition valid_regions : list string :=
  ["BR1"; "EUN1"; "EUW1"; "JP1"; "KR"; "LA1"; "LA2"; "NA1";
   "OC1"; "PH2"; "RU"; "SG2"; "TH2"; "TR1"; "TW2"; "VN2"].

(** [get_region] *)
Definition get_region (region : string) : IO string :=
  if str_mem (str_strip (str_upper region)) valid_regions then ret region
  else
    print (dquote ++ region ++ dquote
           ++ " does not exist. Enter a valid region and try again.")%string ;;;
    print ("Valid regions:  " ++ join ", " (set_order valid_regions))%string ;;;
    sys_exit 2.

(** [get_summoner].  The local variable [summoner] is bound only when the
    call returns; the handler either exits or falls through to the
    [return] with the variable still unbound. *)
Definition get_summoner (watcher : LolWatcher) (region summoner_name : string)
    : IO dict :=
  summoner <-- match summoner_by_name watcher region summoner_name with
               | Ok s => ret (Some s)
               | Raise (ApiError status_code) =>
                   if (status_code =? 404)%Z then
                     print ("Summoner " ++ dquote ++ summoner_name ++ dquote
                            ++ " was not found. Try again.")%string ;;;
                     sys_exit 2
                   else ret None
               | Raise e => raise e
               end ;;
  match summoner with
  | Some s => ret s
  | None => raise (UnboundLocalError "summoner")
  end.

(** [get_puuid] *)
Definition get_puuid (summoner : dict) : res pyobj :=
  subscript summoner "puuid".

(** [get_last_20_match_ids] *)
Definition get_last_20_match_ids (watcher : LolWatcher) (region : string)
    (puuid : pyobj) : res (list string) :=
  let ranked := 420%Z in
  match_matchlist_by_puuid watcher region puuid ranked.

(** [get_match_from_id] *)
Definition get_match_from_id (watcher : LolWatcher) (region match_id : string)
    : res MatchDto :=
  match_by_id watcher region match_id.

Fixpoint list_index (x : string) (l : list string) : option nat :=
  match l with
  | [] => None
  | y :: rest =>
      if String.eqb x y then Some 0
      else match list_index x rest with Some i => Some (S i) | None => None end
  end.

(** [get_player_index]: [list.index] raises [ValueError] when the puuid is
    not among the participants (no string equals a non-string value). *)
Definition get_player_index (puuid : pyobj) (m : MatchDto) : res nat :=
  match puuid with
  | PStr p =>
      match list_index p (metadata_participants m) with
      | Some i => Ok i
      | None => Raise ValueError
      end
  | _ => Raise ValueError
  end.

(** [get_player_from_index] *)
Definition get_player_from_index (m : MatchDto) (index : nat) : res dict :=
  match nth_error (info_participants m) index with
  | Some player => Ok player
  | None => Raise IndexError
  end.

(** [pd.json_normalize(frame[i])['perk']] *)
Definition perk_column (frame : DataFrame) (i : nat) : res Series :=
  c <- getitem frame (LInt i) ;;
  normalized <- json_normalize c ;;
  getitem normalized (LStr "perk").

(** [pd.json_normalize(pd.json_normalize(perks[i])['selections'])] *)
Definition selections_frame (perks : DataFrame) (i : nat) : res DataFrame :=
  style <- getitem perks (LInt i) ;;
  normalized <- json_normalize style ;;
  selections <- getitem normalized (LStr "selections") ;;
  json_normalize selections.

(** [get_runes] *)
Definition get_runes (data : DataFrame) : res DataFrame :=
  styles <- getitem data (LStr "perks.styles") ;;
  perks <- json_normalize styles ;;
  primary <- selections_frame perks 0 ;;
  keystone <- perk_column primary 0 ;;
  primary1 <- perk_column primary 1 ;;
  primary2 <- perk_column primary 2 ;;
  primary3 <- perk_column primary 3 ;;
  secondary <- selections_frame perks 1 ;;
  secondary1 <- perk_column secondary 0 ;;
  secondary2 <- perk_column secondary 1 ;;
  let rune_list :=
    [(LStr "runeKeystone", keystone); (LStr "runePrimary1", primary1);
     (LStr "runePrimary2", primary2); (LStr "runePrimary3", primary3);
     (LStr "runeSecondary1", secondary1); (LStr "runeSecondary2", secondary2)] in
  let runes := concat_series rune_list in
  Ok (concat_columns data runes).

(** The loop of [collect_data]: one row per match, in the order given. *)
Fixpoint collect_rows (watcher : LolWatcher) (region : string) (puuid : pyobj)
    (match_ids : list string) (data : DataFrame) : res DataFrame :=
  match match_ids with
  | [] => Ok data
  | match_id :: rest =>
      m <- get_match_from_id watcher region match_id ;;
      player_index <- get_player_index puuid m ;;
      player <- get_player_from_index m player_index ;;
      player_data <- json_normalize [PDict player] ;;
      collect_rows watcher region puuid rest (concat_rows data player_data)
  end.

(** [collect_data] *)
Definition collect_data (watcher : LolWatcher) (region : string)
    (match_ids : list string) (puuid : pyobj) : res DataFrame :=
  data <- collect_rows watcher region puuid match_ids empty_frame ;;
  get_runes data.

(** [rename_shard_columns] *)
Definition new_names : list (label * label) :=
  [(LStr "perks.statPerks.defense", LStr "runeShardDefense");
   (LStr "perks.statPerks.flex", LStr "runeShardFlex");
   (LStr "perks.statPerks.offense", LStr "runeShardOffense")].

Definition rename_shard_columns (data : DataFrame) : DataFrame :=
  rename_columns data new_names.

(** The columns [remove_unnecessary_info] drops by name. *)
Definition deny_list : list label :=
  map LStr
    ["perks.styles"; "unrealKills"; "totalUnitsHealed"; "summonerId";
     "summonerLevel"; "summonerName"; "role"; "puuid"; "profileIcon";
     "largestCriticalStrike"; "lane"; "itemsPurchased"; "individualPosition";
     "goldSpent"; "eligibleForProgression"; "championTransform"; "championId"].

(** A pattern of the shape ['.*lit' + c + '*']: any prefix, the literal
    run, then the last character repeated any number of times. *)
Definition trailing_star (lit : string) (c : ascii) : regex :=
  Cat (Star Dot) (Cat (word lit) (Star (Chr c))).

(** ['.*challenge*'; '.*Ping*'; '.*riot*'; '.*nexus*'; '.*gameEnded*'] *)
Definition regexes : list regex :=
  [trailing_star "challeng" "e"; trailing_star "Pin" "g";
   trailing_star "rio" "t"; trailing_star "nexu" "s";
   trailing_star "gameEnde" "d"].

(** [filter_data]: builds and returns a new frame without the matching
    columns; the frame passed in is left as it is. *)
Definition filter_data (data : DataFrame) (re : regex) : res DataFrame :=
  data <- drop_columns data (columns (filter_regex data re)) ;;
  Ok data.

(** [remove_unnecessary_info]: the loop calls [filter_data] and does not
    use what it returns. *)
Definition remove_unnecessary_info (data : DataFrame) : res DataFrame :=
  data <- drop_columns data deny_list ;;
  _ <- mapM (fun re => filter_data data re) regexes ;;
  Ok data.

(** [decode_items]: pattern [item\d] *)
Definition decode_items (data : DataFrame) : res DataFrame :=
  let items := filter_regex data (Cat (word "item") digit) in
  applymap_on data (columns items) (fun item => lit_get_name item "item").

(** [decode_summoner_spells]: pattern [summoner([1-2])Id] *)
Definition decode_summoner_spells (data : DataFrame) : res DataFrame :=
  let summoner_spells :=
    filter_regex data (Cat (word "summoner") (Cat (Class "1" "2") (word "Id"))) in
  applymap_on data (columns summoner_spells)
    (fun spell => lit_get_name spell "summoner_spell").

(** [decode_runes]: pattern [rune((Keystone)|(Primary)|(Secondary))] *)
Definition decode_runes (data : DataFrame) : res DataFrame :=
  let runes :=
    filter_regex data
      (Cat (word "rune")
           (Alt (word "Keystone") (Alt (word "Primary") (word "Secondary")))) in
  applymap_on data (columns runes) (fun rune => lit_get_name rune "rune").

Definition translations : list (Z * string) :=
  [(5001, "Health"); (5002, "Armor"); (5003, "Magic Resist");
   (5005, "Attack Speed"); (5007, "Ability Haste"); (5008, "Adaptive Force")]%Z.

Fixpoint assoc_Z (k : Z) (table : list (Z * string)) : option string :=
  match table with
  | [] => None
  | (k', v) :: rest => if (k =? k')%Z then Some v else assoc_Z k rest
  end.

(** [translations.get(shard)]: [None] for a key that is not in the table;
    a list or a dict is unhashable and raises [TypeError]. *)
Definition translations_get (shard : pyobj) : res pyobj :=
  match shard with
  | PInt n =>
      Ok (match assoc_Z n translations with Some s => PStr s | None => PNull end)
  | PBool b =>
      Ok (match assoc_Z (if b then 1 else 0) translations with
          | Some s => PStr s
          | None => PNull
          end)
  | PNull => Ok PNull
  | PStr _ => Ok PNull
  | PList _ => Raise TypeError
  | PDict _ => Raise TypeError
  end.

(** The pattern [runeShard*] of [decode_shards]. *)
Definition shard_regex : regex := Cat (word "runeShar") (Star (Chr "d")).

(** [decode_shards] *)
Definition decode_shards (data : DataFrame) : res DataFrame :=
  let shards := filter_regex data shard_regex in
  applymap_on data (columns shards) translations_get.

(** [filter_and_decode_data] *)
Definition filter_and_decode_data (data : DataFrame) : res DataFrame :=
  data <- remove_unnecessary_info data ;;
  data <- decode_items data ;;
  data <- decode_summoner_spells data ;;
  data <- decode_runes data ;;
  data <- decode_shards data ;;
  Ok data.

(** [sort_data] *)
Definition sort_data (data : DataFrame) : res DataFrame :=
  sort_index_columns data.

(** [save_data_to_pickle] *)
Definition save_data_to_pickle (data : DataFrame) (summoner : dict) : IO unit :=
  name <-- lift (subscript summoner "name") ;;
  to_pickle data
    (py_format name ++ "_ranked_stats_" ++ time_str ++ ".pickle")%string.

(** [main], with [sys.argv] and the API client made explicit. *)
Definition main (lol_watcher : LolWatcher) (argv : list string) : IO unit :=
  check_user_input argv ;;;
  arg1 <-- lift (argv_at argv 1) ;;
  region <-- get_region arg1 ;;
  arg2 <-- lift (argv_at argv 2) ;;
  summoner <-- get_summoner lol_watcher region arg2 ;;
  puuid <-- lift (get_puuid summoner) ;;
  match_ids <-- lift (get_last_20_match_ids lol_watcher region puuid) ;;
  data <-- lift (collect_data lol_watcher region match_ids puuid) ;;
  data <-- ret (rename_shard_columns data) ;;
  data <-- lift (filter_and_decode_data data) ;;
  data <-- lift (sort_data data) ;;
  save_data_to_pickle data summoner.

End Pipeline.

(* ================================================================== *)
(** * Vocabulary of the statements *)
(* ================================================================== *)

(** A column name that one of the five removal patterns is found in. *)
Definition matches_removal_pattern (l : label) : bool :=
  existsb (fun re => re_search re (label_str l)) regexes.

(** Every deny-listed column is present in the frame. *)
Definition has_deny_list (data : DataFrame) : bool :=
  forallb (fun l => label_mem l (columns data)) deny_list.

(** [needle] occurs inside [s]. *)
Definition contains (needle s : string) : Prop :=
  exists a b : string, s = (a ++ needle ++ b)%string.

(** A one-row frame with the given named cells. *)
Definition one_row (cells : list (string * pyobj)) : DataFrame :=
  mkFrame 1 (map (fun kv => (LStr (fst kv), [snd kv])) cells).

(** A cell [0] under the name of every deny-listed column. *)
Definition deny_cells : list (string * pyobj) :=
  map (fun l => (label_str l, PInt 0)) deny_list.

(** A row as the API yields it: the deny-listed columns, one statistic,
    and one column for each removal pattern. *)
Definition noisy_frame : DataFrame :=
  one_row (deny_cells ++
           [("kills", PInt 7); ("challenges.kda", PInt 3);
            ("allInPings", PInt 2); ("riotIdTagline", PStr "NA1");
            ("nexusKills", PInt 1); ("gameEndedInSurrender", PBool false)]).

(** The same row without the [unrealKills] column. *)
Definition frame_without_unrealKills : DataFrame :=
  one_row (filter (fun kv => negb (String.eqb (fst kv) "unrealKills")) deny_cells
           ++ [("kills", PInt 7)]).

(** The two lines [get_region] prints before it exits. *)
Definition region_error_lines (set_order : list string -> list string)
    (region : string) : list string :=
  [(dquote ++ region ++ dquote
    ++ " does not exist. Enter a valid region and try again.")%string;
   ("Valid regions:  " ++ join ", " (set_order valid_regions))%string].

(** ** Rune-selection trees *)

(** A dict none of whose values is a dict. *)
Definition flat (d : dict) : bool :=
  forallb (fun kv => negb (is_dict (snd kv))) d.

(** One rune selection: a flat dict with a ['perk'] entry. *)
Definition is_selection (s : pyobj) : bool :=
  match s with
  | PDict d => flat d && has_key "perk" d
  | _ => false
  end.

(** The selections of a style branch: a flat dict whose ['selections']
    entry is a list of selections. *)
Definition branch_selections (b : pyobj) : option (list pyobj) :=
  match b with
  | PDict d =>
      if flat d then
        match dict_get "selections" d with
        | Some (PList sels) => if forallb is_selection sels then Some sels else None
        | _ => None
        end
      else None
  | _ => None
  end.

Definition is_branch (b : pyobj) : bool :=
  match branch_selections b with Some _ => true | None => false end.

Definition items_of (v : pyobj) : list pyobj :=
  match v with PList l => l | _ => [] end.

Definition entries_of (v : pyobj) : dict :=
  match v with PDict d => d | _ => [] end.

(** The selections of branch [b] of the tree in cell [c]. *)
Definition selections_of (b : nat) (c : pyobj) : list pyobj :=
  items_of (dict_get_default "selections" (entries_of (nth b (items_of c) PNull))).

Fixpoint nat_list_eqb (a b : list nat) : bool :=
  match a, b with
  | [], [] => true
  | x :: a', y :: b' => Nat.eqb x y && nat_list_eqb a' b'
  | _, _ => false
  end.

(** The cell [c] is a rune-selection tree of the given shape: a list of
    style branches, [shape] giving the number of selections of each. *)
Definition has_shape (shape : list nat) (c : pyobj) : bool :=
  match c with
  | PList bs =>
      forallb is_branch bs &&
      nat_list_eqb
        (map (fun b => length (items_of (dict_get_default "selections"
                                           (entries_of b)))) bs)
        shape
  | _ => false
  end.

(** The perk id at position [j] of branch [b] of the tree in cell [c]. *)
Definition perk_of (b j : nat) (c : pyobj) : pyobj :=
  dict_get_default "perk" (entries_of (nth j (selections_of b c) PNull)).

(** The six rune columns, read off the trees position by position. *)
Definition rune_columns (styles : Series) : list (label * Series) :=
  [(LStr "runeKeystone", map (perk_of 0 0) styles);
   (LStr "runePrimary1", map (perk_of 0 1) styles);
   (LStr "runePrimary2", map (perk_of 0 2) styles);
   (LStr "runePrimary3", map (perk_of 0 3) styles);
   (LStr "runeSecondary1", map (perk_of 1 0) styles);
   (LStr "runeSecondary2", map (perk_of 1 1) styles)].

Definition rune_names : list label := map fst (rune_columns []).

Definition shard_names : list label := map snd new_names.

(** What [get_runes] does on a batch whose trees all have [shape]: the
    first position the code indexes that the shape lacks is the key of
    the [KeyError]; with at least 4 and 2 selections in the first two
    branches the six columns are appended. *)
Definition runes_outcome (data : DataFrame) (styles : Series)
    (shape : list nat) : res DataFrame :=
  match shape with
  | [] => Raise (KeyError [LInt 0])
  | p :: rest =>
      if (p <? 4)%nat then Raise (KeyError [LInt p])
      else match rest with
           | [] => Raise (KeyError [LInt 1])
           | s :: _ =>
               if (s <? 2)%nat then Raise (KeyError [LInt s])
               else Ok (concat_columns data (concat_series (rune_columns styles)))
           end
  end.

(** ** Sample data *)

(** One rune selection as the API reports it. *)
Definition selection (perk : Z) : pyobj :=
  PDict [("perk", PInt perk); ("var1", PInt 0); ("var2", PInt 0); ("var3", PInt 0)].

(** One style branch with the given perks selected. *)
Definition style_branch (description : string) (style : Z) (perks : list Z)
    : pyobj :=
  PDict [("description", PStr description);
         ("selections", PList (map selection perks));
         ("style", PInt style)].

(** A tree of the provider's shape: 4 primary and 2 secondary selections. *)
Definition good_tree : pyobj :=
  PList [style_branch "primaryStyle" 8000 [8005; 9111; 9104; 8014]%Z;
         style_branch "subStyle" 8300 [8304; 8345]%Z].

(** A primary branch with 3 selections. *)
Definition short_primary_tree : pyobj :=
  PList [style_branch "primaryStyle" 8000 [8005; 9111; 9104]%Z;
         style_branch "subStyle" 8300 [8304; 8345]%Z].

(** Three style branches. *)
Definition three_branch_tree : pyobj :=
  PList [style_branch "primaryStyle" 8000 [8005; 9111; 9104; 8014]%Z;
         style_branch "subStyle" 8300 [8304; 8345]%Z;
         style_branch "extraStyle" 8400 [8401]%Z].

(** A participant record: the deny-listed fields, some statistics, and
    the nested [perks] structure; [extra] adds optional fields. *)
Definition participant (assists : Z) (tree : pyobj) (extra : dict) : dict :=
  [("assists", PInt assists); ("championId", PInt 222);
   ("championTransform", PInt 0); ("eligibleForProgression", PBool true);
   ("goldSpent", PInt 9000); ("individualPosition", PStr "BOTTOM");
   ("item0", PInt 1001); ("itemsPurchased", PInt 20); ("lane", PStr "BOTTOM");
   ("largestCriticalStrike", PInt 300); ("nexusKills", PInt 0);
   ("perks",
    PDict [("statPerks",
            PDict [("defense", PInt 5002); ("flex", PInt 5008);
                   ("offense", PInt 5005)]);
           ("styles", tree)]);
   ("profileIcon", PInt 7); ("puuid", PStr "p-1"); ("role", PStr "CARRY");
   ("summonerId", PStr "s-1"); ("summonerLevel", PInt 100);
   ("summonerName", PStr "Zenith"); ("totalUnitsHealed", PInt 1);
   ("unrealKills", PInt 0)] ++ extra.

(** A two-match batch before rune unpacking; the second match reports a
    field the first one lacks. *)
Definition sample_batch : DataFrame :=
  from_records
    (map normalise_json_ordered
       [participant 3 good_tree [];
        participant 4 good_tree [("playerAugment1", PInt 12)]]).

(** ** The language of a pattern *)

(** The strings a pattern matches in full, as Python's [re] defines it;
    [Dot] is any character but a newline. *)
Inductive lang : regex -> string -> Prop :=
| lang_eps : lang Eps EmptyString
| lang_chr (c : ascii) : lang (Chr c) (String c EmptyString)
| lang_dot (c : ascii) : c <> newline -> lang Dot (String c EmptyString)
| lang_class (lo hi c : ascii) :
    in_class lo hi c = true -> lang (Class lo hi) (String c EmptyString)
| lang_cat (r1 r2 : regex) (s1 s2 : string) :
    lang r1 s1 -> lang r2 s2 -> lang (Cat r1 r2) (s1 ++ s2)%string
| lang_alt_l (r1 r2 : regex) (s : string) : lang r1 s -> lang (Alt r1 r2) s
| lang_alt_r (r1 r2 : regex) (s : string) : lang r2 s -> lang (Alt r1 r2) s
| lang_star_nil (r : regex) : lang (Star r) EmptyString
| lang_star_cons (r : regex) (s1 s2 : string) :
    lang r s1 -> lang (Star r) s2 -> lang (Star r) (s1 ++ s2)%string.

(** ** Shard decoding *)

(** A value that can be a dict key. *)
Definition hashable (v : pyobj) : bool :=
  match v with
  | PList _ => false
  | PDict _ => false
  | _ => true
  end.

(** The shard table, entry by entry; every other value is null. *)
Definition shard_name (v : pyobj) : pyobj :=
  match v with
  | PInt 5001 => PStr "Health"
  | PInt 5002 => PStr "Armor"
  | PInt 5003 => PStr "Magic Resist"
  | PInt 5005 => PStr "Attack Speed"
  | PInt 5007 => PStr "Ability Haste"
  | PInt 5008 => PStr "Adaptive Force"
  | _ => PNull
  end.

(** A column that [decode_shards] selects. *)
Definition shard_column (l : label) : bool :=
  re_search shard_regex (label_str l).

(** A row with the three shard columns and a column whose name merely
    starts like theirs. *)
Definition sharp_frame : DataFrame :=
  one_row [("kills", PInt 5001); ("runeShardDefense", PInt 5002);
           ("runeShardFlex", PInt 9999); ("runeShardOffense", PInt 5005);
           ("runeSharpness", PInt 5001)].

(** ** The batch *)


(** The tracked player's participant record in each match, in order. *)
Fixpoint players_of (watcher : LolWatcher) (region : string) (puuid : pyobj)
    (match_ids : list string) : res (list dict) :=
  match match_ids with
  | [] => Ok []
  | match_id :: rest =>
      m <- get_match_from_id watcher region match_id ;;
      player_index <- get_player_index puuid m ;;
      player <- get_player_from_index m player_index ;;
      players <- players_of watcher region puuid rest ;;
      Ok (player :: players)
  end.


(** Every column is as long as the index. *)
Definition lengths_ok (df : DataFrame) : Prop :=
  forall c, In c (cols df) -> length (snd c) = nrows df.

(** A match with two participants, the tracked player second. *)
Definition sample_match (player : dict) : MatchDto :=
  mkMatch ["p-0"; "p-1"] [[("puuid", PStr "p-0")]; player].

(** A client that knows one player and two of their matches. *)
Definition sample_watcher : LolWatcher :=
  mkWatcher
    (fun _ _ => Ok [("puuid", PStr "p-1"); ("name", PStr "Zenith")])
    (fun _ _ _ => Ok ["NA1_1"; "NA1_2"])
    (fun _ match_id =>
       if String.eqb match_id "NA1_1"
       then Ok (sample_match (participant 3 good_tree []))
       else if String.eqb match_id "NA1_2"
       then Ok (sample_match
                  (participant 4 good_tree [("playerAugment1", PInt 12)]))
       else Raise (ApiError 404)).

(** A client that knows the player and finds no ranked match. *)
Definition idle_watcher : LolWatcher :=
  mkWatcher
    (fun _ _ => Ok [("puuid", PStr "p-1"); ("name", PStr "Zenith")])
    (fun _ _ _ => Ok [])
    (fun _ _ => Raise (ApiError 404)).

(** ** Extraction, sorting and decoding *)

(** The tracked player's record in one match: fetch, locate, pick. *)
Definition player_of_match (watcher : LolWatcher) (region : string)
    (puuid : pyobj) (match_id : string) : res dict :=
  m <- get_match_from_id watcher region match_id ;;
  player_index <- get_player_index puuid m ;;
  get_player_from_index m player_index.

(** Every label is a string. *)
Definition string_labels (ls : list label) : bool :=
  forallb (fun l => match l with LStr _ => true | LInt _ => false end) ls.

(** [a <= b] for two labels of one kind. *)
Definition label_le (a b : label) : bool :=
  match a, b with
  | LStr s, LStr t => String.leb s t
  | LInt n, LInt m => Nat.leb n m
  | _, _ => false
  end.

(** Neighbouring labels are in ascending order. *)
Fixpoint ascending (ls : list label) : bool :=
  match ls with
  | a :: rest =>
      match rest with
      | b :: _ => label_le a b && ascending rest
      | [] => true
      end
  | [] => true
  end.




(** The patterns of the three decoders that go through [lit.get_name]. *)
Definition item_regex : regex := Cat (word "item") digit.
Definition spell_regex : regex :=
  Cat (word "summoner") (Cat (Class "1" "2") (word "Id")).
Definition rune_regex : regex :=
  Cat (word "rune")
      (Alt (word "Keystone") (Alt (word "Primary") (word "Secondary"))).

(** A frame with [f] applied to the cells of the columns [sel] selects. *)
Definition map_selected (sel : label -> bool) (f : pyobj -> pyobj)
    (data : DataFrame) : DataFrame :=
  mkFrame (nrows data)
    (map (fun c => if sel (fst c) then (fst c, map f (snd c)) else c)
         (cols data)).

(** A resolver that knows two items and nothing else. *)
Definition sample_get_name (v : pyobj) (object_type : string) : res pyobj :=
  match v with
  | PInt 1001 => Ok (PStr "Boots")
  | PInt 3006 => Ok (PStr "Berserker's Greaves")
  | _ => Raise (KeyError [])
  end.

(* ================================================================== *)
(** * champions.py *)
(* ================================================================== *)

(** The earlier pipeline.  Its [get_region], [get_summoner], [get_puuid],
    [get_last_20_match_ids], [get_match_from_id], [get_player_index],
    [get_player_from_index], [decode_items] and [decode_summoner_spells]
    are, line for line, those of [collect_ranked_stats.py] and are used
    from above.  A frame that a function changes in place is passed in
    and handed back next to the returned value. *)
Module Champions.

Section Pipeline.

Variable lit_get_name : pyobj -> string -> res pyobj.
Variable str_upper : string -> string.
Variable str_strip : string -> string.
Variable set_order : list string -> list string.

(** [collect_data]: the loop only; [get_runes] is not called. *)
Definition collect_data (watcher : LolWatcher) (region : string)
    (match_ids : list string) (puuid : pyobj) : res DataFrame :=
  collect_rows watcher region puuid match_ids empty_frame.

(** The columns dropped by name; ['perks.styles'] is not among them. *)
Definition deny_list : list label :=
  map LStr
    ["unrealKills"; "totalUnitsHealed"; "summonerId";
     "summonerLevel"; "summonerName"; "role"; "puuid"; "profileIcon";
     "largestCriticalStrike"; "lane"; "itemsPurchased"; "individualPosition";
     "goldSpent"; "eligibleForProgression"; "championTransform"; "championId"].

(** [filter_data]: [data.drop(..., inplace=True)] changes [data] itself
    and returns [None].  The result is the frame after the call and the
    value returned. *)
Definition filter_data (data : DataFrame) (re : regex)
    : res (DataFrame * pyobj) :=
  data <- drop_columns data (columns (filter_regex data re)) ;;
  Ok (data, PNull).

(** The loop [for regex in regexes: filter_data(data, regex)]. *)
Fixpoint filter_all (data : DataFrame) (res_list : list regex)
    : res DataFrame :=
  match res_list with
  | [] => Ok data
  | re :: rest =>
      r <- filter_data data re ;;
      filter_all (fst r) rest
  end.

(** [remove_unnecessary_info] *)
Definition remove_unnecessary_info (data : DataFrame) : res DataFrame :=
  data <- drop_columns data deny_list ;;
  data <- filter_all data regexes ;;
  Ok data.

(** [filter_and_decode_data]: the first line normalizes the styles column
    and drops the result. *)
Definition filter_and_decode_data (data : DataFrame) : res DataFrame :=
  styles <- getitem data (LStr "perks.styles") ;;
  _ <- json_normalize styles ;;
  data <- remove_unnecessary_info data ;;
  data <- decode_items lit_get_name data ;;
  data <- decode_summoner_spells lit_get_name data ;;
  Ok data.

(** [get_runes]: unfinished; it builds two Series and returns [None]. *)
Definition get_runes (data : DataFrame) : res pyobj :=
  styles <- getitem data (LStr "perks.styles") ;;
  perks <- json_normalize styles ;;
  perks0 <- getitem perks (LInt 0) ;;
  normalized0 <- json_normalize perks0 ;;
  primary <- getitem normalized0 (LStr "selections") ;;
  perks1 <- getitem perks (LInt 1) ;;
  normalized1 <- json_normalize perks1 ;;
  secondary <- getitem normalized1 (LStr "selections") ;;
  Ok PNull.

(** [data.to_csv(path, index=False)] *)
Definition to_csv (df : DataFrame) (path : string) : IO unit :=
  to_pickle df path.

(** [main]: the region and the player are fixed in the code. *)
Definition main (lol_watcher : LolWatcher) : IO unit :=
  region <-- get_region str_upper str_strip set_order "NA1" ;;
  summoner <-- get_summoner lol_watcher region "Zenîth" ;;
  puuid <-- lift (subscript summoner "puuid") ;;
  match_ids <-- lift (get_last_20_match_ids lol_watcher region puuid) ;;
  data <-- lift (collect_data lol_watcher region match_ids puuid) ;;
  data <-- lift (filter_and_decode_data data) ;;
  to_csv data "test.csv".

End Pipeline.

End Champions.

(** ** What a run leaves behind *)

(** A step that writes no file and, when it returns, has printed
    nothing. *)
Definition quiet {A : Type} (m : IO A) : Prop :=
  forall w, files (fst (m w)) = files w /\
            forall a, snd (m w) = Ok a -> fst (m w) = w.

(** The outcome [x] of a run started in [w]: a run that returns has
    printed nothing and added one file; a run that raises has added
    none. *)
Definition writes_once {A : Type} (w : world) (x : world * res A) : Prop :=
  match snd x with
  | Ok _ =>
      stdout (fst x) = stdout w /\
      exists path data, files (fst x) = files w ++ [(path, data)]
  | Raise _ => files (fst x) = files w
  end.

(** The four lines [check_user_input] prints. *)
Definition usage_lines : list string :=
  [("Incorrect number of arguments were provided." ++ nl)%string;
   "Run the program again with the following arguments:";
   ("python collect_ranked_stats.py {region name} {summoner name}" ++ nl)%string;
   "Example: python collect_ranked_stats.py NA1 Zenîth"].

(** A client that does not know the player. *)
Definition stranger_watcher : LolWatcher :=
  mkWatcher
    (fun _ _ => Raise (ApiError 404))
    (fun _ _ _ => Ok [])
    (fun _ _ => Raise (ApiError 404)).

(** The line [get_summoner] prints for an unknown player. *)
Definition not_found_line (summoner_name : string) : string :=
  ("Summoner " ++ dquote ++ summoner_name ++ dquote
   ++ " was not found. Try again.")%string.

(** The name of the file [save_data_to_pickle] writes. *)
Definition pickle_name (py_format : pyobj -> string) (time_str : string)
    (name : pyobj) : string :=
  (py_format name ++ "_ranked_stats_" ++ time_str ++ ".pickle")%string.

(** A resolver that knows every id and names it by itself. *)
Definition echo_name (v : pyobj) (object_type : string) : res pyobj := Ok v.


(* ================================================================== *)
(** * Basic facts *)
(* ================================================================== *)

Lemma label_eqb_eq (a b : label) : label_eqb a b = true <-> a = b.
Proof.
  destruct a as [s|n], b as [t|m]; simpl; split; intros H;
    try discriminate; try congruence.
  - apply String.eqb_eq in H. now subst.
  - injection H as ->. apply String.eqb_refl.
  - apply Nat.eqb_eq in H. now subst.
  - injection H as ->. apply Nat.eqb_refl.
Qed.

Lemma label_eqb_refl (a : label) : label_eqb a a = true.
Proof. now apply label_eqb_eq. Qed.

Lemma label_mem_In (l : label) (ls : list label) :
  label_mem l ls = true <-> In l ls.
Proof.
  unfold label_mem. rewrite existsb_exists. split.
  - intros [x [Hin Heq]]. apply label_eqb_eq in Heq. now subst.
  - intros Hin. exists l. split; [assumption | apply label_eqb_refl].
Qed.

Lemma label_mem_false (l : label) (ls : list label) :
  label_mem l ls = false <-> ~ In l ls.
Proof.
  rewrite <- label_mem_In. destruct (label_mem l ls); split; intros H;
    try congruence; try discriminate.
Qed.

Lemma filter_nil {A : Type} (f : A -> bool) (l : list A) :
  (forall x, In x l -> f x = false) -> filter f l = [].
Proof.
  induction l as [|a l IH]; simpl; intros H; [reflexivity|].
  rewrite (H a (or_introl eq_refl)). apply IH. intros x Hx. apply H. now right.
Qed.

Lemma filter_nil_inv {A : Type} (f : A -> bool) (l : list A) :
  filter f l = [] -> forall x, In x l -> f x = false.
Proof.
  induction l as [|a l IH]; simpl; intros H x Hx; [contradiction|].
  destruct (f a) eqn:Ha; [discriminate|].
  destruct Hx as [<-|Hx]; [assumption | now apply IH].
Qed.

Lemma mapM_total {A B : Type} (f : A -> res B) (l : list A) :
  (forall x, In x l -> exists y, f x = Ok y) -> exists ys, mapM f l = Ok ys.
Proof.
  induction l as [|a l IH]; simpl; intros H.
  - now exists [].
  - destruct (H a (or_introl eq_refl)) as [y Hy]. rewrite Hy. simpl.
    destruct IH as [ys Hys]; [intros x Hx; apply H; now right|].
    rewrite Hys. simpl. now exists (y :: ys).
Qed.

(* ================================================================== *)
(** * Column removal *)
(* ================================================================== *)

Lemma columns_filter_regex_incl (data : DataFrame) (re : regex) (l : label) :
  In l (columns (filter_regex data re)) -> In l (columns data).
Proof.
  unfold columns, filter_regex. simpl. rewrite !in_map_iff.
  intros [c [Hc Hin]]. apply filter_In in Hin. exists c. tauto.
Qed.

(** [filter_data] cannot raise: it only drops columns it has just found. *)
Lemma filter_data_total (data : DataFrame) (re : regex) :
  exists out, filter_data data re = Ok out.
Proof.
  unfold filter_data, drop_columns.
  rewrite filter_nil.
  - simpl. eauto.
  - intros l Hl. apply columns_filter_regex_incl in Hl.
    apply label_mem_In in Hl. now rewrite Hl.
Qed.

(** The pattern loop has no effect on what [remove_unnecessary_info]
    returns: the function is the deny-list drop. *)
Lemma remove_unnecessary_info_drop (data : DataFrame) :
  remove_unnecessary_info data = drop_columns data deny_list.
Proof.
  unfold remove_unnecessary_info.
  destruct (drop_columns data deny_list) as [d|e]; cbn [bind]; [|reflexivity].
  destruct (mapM_total (fun re => filter_data d re) regexes) as [ys Hys].
  - intros re _. apply filter_data_total.
  - now rewrite Hys.
Qed.

Lemma drop_columns_ok (data out : DataFrame) (labels : list label) :
  drop_columns data labels = Ok out ->
  (forall l, In l labels -> In l (columns data)) /\
  out = mkFrame (nrows data)
          (filter (fun c => negb (label_mem (fst c) labels)) (cols data)).
Proof.
  unfold drop_columns.
  destruct (filter _ labels) as [|m ms] eqn:Hf; [|discriminate].
  intros H. injection H as <-. split; [|reflexivity].
  intros l Hl. pose proof (filter_nil_inv _ _ Hf l Hl) as Hm.
  apply negb_false_iff in Hm. now apply label_mem_In.
Qed.

Lemma drop_columns_present (data : DataFrame) (labels : list label) :
  forallb (fun l => label_mem l (columns data)) labels = true ->
  drop_columns data labels =
  Ok (mkFrame (nrows data)
        (filter (fun c => negb (label_mem (fst c) labels)) (cols data))).
Proof.
  intros H. unfold drop_columns. rewrite filter_nil; [reflexivity|].
  intros l Hl. rewrite forallb_forall in H. now rewrite (H l Hl).
Qed.

Lemma drop_columns_absent (data : DataFrame) (labels : list label) :
  forallb (fun l => label_mem l (columns data)) labels = false ->
  drop_columns data labels =
  Raise (KeyError (filter (fun l => negb (label_mem l (columns data))) labels)).
Proof.
  intros H. unfold drop_columns.
  destruct (filter _ labels) as [|m ms] eqn:Hf; [|reflexivity].
  exfalso. assert (forallb (fun l => label_mem l (columns data)) labels = true).
  { apply forallb_forall. intros l Hl.
    pose proof (filter_nil_inv _ _ Hf l Hl) as Hm. now apply negb_false_iff in Hm. }
  congruence.
Qed.

Lemma find_col_filter (p : label -> bool) (l : label) (cs : list (label * Series)) :
  p l = true ->
  find_col l (filter (fun c => p (fst c)) cs) = find_col l cs.
Proof.
  intros Hp. induction cs as [|[l' s] cs IH]; simpl; [reflexivity|].
  destruct (p l') eqn:Hl'; simpl.
  - destruct (label_eqb l l'); [reflexivity | exact IH].
  - destruct (label_eqb l l') eqn:E; [|exact IH].
    apply label_eqb_eq in E. congruence.
Qed.

Lemma filter_all {A : Type} (f : A -> bool) (l : list A) :
  (forall x, In x l -> f x = true) -> filter f l = l.
Proof.
  induction l as [|a l IH]; simpl; intros H; [reflexivity|].
  rewrite (H a (or_introl eq_refl)). f_equal. apply IH. intros x Hx. apply H. now right.
Qed.

Lemma columns_after_drop (n : nat) (labels : list label) (cs : list (label * Series)) (l : label) :
  In l (columns (mkFrame n (filter (fun c => negb (label_mem (fst c) labels)) cs))) ->
  label_mem l labels = false.
Proof.
  unfold columns. simpl. rewrite in_map_iff. intros [c [<- Hc]].
  apply filter_In in Hc. destruct Hc as [_ Hc]. now apply negb_true_iff in Hc.
Qed.

(** C1, as the code has it: a column that a removal pattern matches is not
    removed.  Whenever [remove_unnecessary_info] returns, every column of
    its input that is off the deny-list is in the result with its cells,
    although one of the five patterns is found in its name. *)
Theorem pattern_columns_survive (data out : DataFrame) (l : label) (s : Series) :
  remove_unnecessary_info data = Ok out ->
  In (l, s) (cols data) ->
  matches_removal_pattern l = true ->
  label_mem l deny_list = false ->
  In (l, s) (cols out).
Proof.
  intros Hrun Hin _ Hdeny.
  rewrite remove_unnecessary_info_drop in Hrun.
  apply drop_columns_ok in Hrun. destruct Hrun as [_ ->]. cbn [cols].
  apply filter_In. split; [assumption|]. cbn [fst]. now rewrite Hdeny.
Qed.

Lemma pattern_columns_survive_witness :
  exists out,
    remove_unnecessary_info noisy_frame = Ok out /\
    In (LStr "nexusKills", [PInt 1]) (cols out).
Proof.
  eexists. split; [vm_compute; reflexivity|].
  apply (@pattern_columns_survive noisy_frame _ (LStr "nexusKills") [PInt 1]).
  - vm_compute. reflexivity.
  - vm_compute. tauto.
  - vm_compute. reflexivity.
  - vm_compute. reflexivity.
Defined.

(** C2, counterexample: a well-formed row set without the [unrealKills]
    column makes [remove_unnecessary_info] fail. *)
Lemma remove_unnecessary_info_partial :
  wf_frame frame_without_unrealKills = true /\
  remove_unnecessary_info frame_without_unrealKills =
  Raise (KeyError [LStr "unrealKills"]).
Proof. split; vm_compute; reflexivity. Qed.

(** C2, amended: [remove_unnecessary_info] returns exactly when every
    deny-listed column is present.  It then keeps the row count, invents no
    column, and every column that is neither deny-listed nor matched by a
    removal pattern is in the result with the cells it had.  When a
    deny-listed column is absent it raises [KeyError] with the absent ones. *)
Theorem remove_unnecessary_info_defined (data : DataFrame) :
  (has_deny_list data = true ->
   exists out,
     remove_unnecessary_info data = Ok out /\
     nrows out = nrows data /\
     incl (cols out) (cols data) /\
     forall l, label_mem l deny_list = false ->
               matches_removal_pattern l = false ->
               find_col l (cols out) = find_col l (cols data)) /\
  (has_deny_list data = false ->
   remove_unnecessary_info data =
   Raise (KeyError
            (filter (fun l => negb (label_mem l (columns data))) deny_list))).
Proof.
  rewrite remove_unnecessary_info_drop. split; intros H.
  - rewrite (drop_columns_present _ _ H). eexists. split; [reflexivity|].
    cbn [nrows cols]. split; [reflexivity|]. split.
    + intros c Hc. apply filter_In in Hc. tauto.
    + intros l Hl _.
      apply (find_col_filter (fun l => negb (label_mem l deny_list))).
      now rewrite Hl.
  - now apply drop_columns_absent.
Qed.

Lemma remove_unnecessary_info_defined_witness :
  exists out,
    remove_unnecessary_info noisy_frame = Ok out /\
    find_col (LStr "kills") (cols out) = Some [PInt 7].
Proof.
  destruct (proj1 (@remove_unnecessary_info_defined noisy_frame))
    as [out [Hrun [_ [_ Hkeep]]]]; [vm_compute; reflexivity|].
  exists out. split; [exact Hrun|].
  rewrite (Hkeep (LStr "kills")); vm_compute; reflexivity.
Defined.

(** C3, counterexample: on a row that holds every deny-listed column the
    first application succeeds and the second one, on its result, does not
    return that result. *)
Lemma remove_unnecessary_info_not_idempotent :
  exists out,
    remove_unnecessary_info noisy_frame = Ok out /\
    remove_unnecessary_info out <> Ok out.
Proof.
  eexists. split; [vm_compute; reflexivity|]. vm_compute. discriminate.
Qed.

(** C3, amended: [remove_unnecessary_info] cannot be applied twice.  When
    it succeeds, its result holds no deny-listed column, so a second
    application raises [KeyError] listing the whole deny-list. *)
Theorem remove_unnecessary_info_twice (data out : DataFrame) :
  remove_unnecessary_info data = Ok out ->
  (forall l, In l deny_list -> ~ In l (columns out)) /\
  remove_unnecessary_info out = Raise (KeyError deny_list).
Proof.
  intros Hrun. rewrite remove_unnecessary_info_drop in Hrun.
  apply drop_columns_ok in Hrun. destruct Hrun as [_ ->].
  assert (Habs : forall l, In l deny_list ->
            ~ In l (columns (mkFrame (nrows data)
                 (filter (fun c => negb (label_mem (fst c) deny_list)) (cols data))))).
  { intros l Hl Hin. apply columns_after_drop in Hin.
    apply label_mem_In in Hl. congruence. }
  split; [exact Habs|].
  rewrite remove_unnecessary_info_drop. unfold drop_columns.
  rewrite filter_all.
  - reflexivity.
  - intros l Hl. apply negb_true_iff. apply label_mem_false. now apply Habs.
Qed.

Lemma remove_unnecessary_info_twice_witness :
  exists out,
    remove_unnecessary_info noisy_frame = Ok out /\
    remove_unnecessary_info out = Raise (KeyError deny_list).
Proof.
  eexists. split.
  - vm_compute. reflexivity.
  - apply (@remove_unnecessary_info_twice noisy_frame). vm_compute. reflexivity.
Defined.

(* ================================================================== *)
(** * The command line: region and player lookup *)
(* ================================================================== *)

Lemma str_mem_In (s : string) (l : list string) : str_mem s l = true <-> In s l.
Proof.
  unfold str_mem. rewrite existsb_exists. split.
  - intros [x [Hin Heq]]. apply String.eqb_eq in Heq. now subst.
  - intros Hin. exists s. split; [assumption | apply String.eqb_refl].
Qed.

Lemma append_assoc (a b c : string) : ((a ++ b) ++ c = a ++ (b ++ c))%string.
Proof. induction a as [|x a IH]; simpl; [reflexivity | now rewrite IH]. Qed.

Lemma append_nil_r (a : string) : (a ++ "")%string = a.
Proof. induction a as [|x a IH]; simpl; [reflexivity | now rewrite IH]. Qed.

Lemma contains_prefix (needle s p : string) :
  contains needle s -> contains needle (p ++ s)%string.
Proof.
  intros [a [b ->]]. exists (p ++ a)%string, b. now rewrite append_assoc.
Qed.

Lemma contains_join (sep r : string) (l : list string) :
  In r l -> contains r (join sep l).
Proof.
  induction l as [|p l IH]; [contradiction|]. intros [->|Hin].
  - destruct l as [|q l]; simpl.
    + exists ""%string, ""%string. simpl. now rewrite append_nil_r.
    + exists ""%string. eexists. simpl. reflexivity.
  - specialize (IH Hin). destruct l as [|q l]; [contradiction|].
    change (join sep (p :: q :: l)) with (p ++ sep ++ join sep (q :: l))%string.
    now do 2 apply contains_prefix.
Qed.

(** C7: [get_region] accepts its input exactly when the input, uppercased
    and stripped, is one of the 16 region codes, and then returns it as
    typed.  Otherwise it prints two lines, the second naming every valid
    region, and exits with status 2; [main] stops there, having written no
    file.  So ["na1"] is accepted, as ["NA1"] is, and ["XX9"] is rejected. *)
Theorem get_region_accepts_iff
    (lit_get_name : pyobj -> string -> res pyobj)
    (str_upper str_strip : string -> string)
    (set_order : list string -> list string)
    (time_str : string) (py_format : pyobj -> string)
    (lol_watcher : LolWatcher) (prog region name : string) (w : world) :
  (forall s, is_ascii s = true -> str_upper s = upper s /\ str_strip s = strip s) ->
  Permutation (set_order valid_regions) valid_regions ->
  length valid_regions = 16 /\ NoDup valid_regions /\
  ((exists w', get_region str_upper str_strip set_order region w = (w', Ok region))
   <-> In (str_strip (str_upper region)) valid_regions) /\
  (In (str_strip (str_upper region)) valid_regions ->
   get_region str_upper str_strip set_order region w = (w, Ok region)) /\
  (~ In (str_strip (str_upper region)) valid_regions ->
   let w' := mkWorld (stdout w ++ region_error_lines set_order region) (files w) in
   get_region str_upper str_strip set_order region w = (w', Raise (SystemExit 2)) /\
   (forall r, In r valid_regions ->
              contains r (nth 1 (region_error_lines set_order region) "")) /\
   main lit_get_name str_upper str_strip set_order time_str py_format lol_watcher
        [prog; region; name] w = (w', Raise (SystemExit 2))) /\
  get_region str_upper str_strip set_order "na1" w = (w, Ok "na1") /\
  get_region str_upper str_strip set_order "NA1" w = (w, Ok "NA1") /\
  snd (get_region str_upper str_strip set_order "XX9" w) = Raise (SystemExit 2).
Proof.
  intros Hascii Hperm.
  assert (Hnorm : forall s, is_ascii s = true -> is_ascii (upper s) = true ->
                            str_strip (str_upper s) = strip (upper s)).
  { intros s Hs Hu. destruct (Hascii s Hs) as [-> _].
    now destruct (Hascii (upper s) Hu) as [_ ->]. }
  assert (Hacc : forall r, In (str_strip (str_upper r)) valid_regions ->
                 get_region str_upper str_strip set_order r w = (w, Ok r)).
  { intros r Hin. apply str_mem_In in Hin. unfold get_region. now rewrite Hin. }
  assert (Hrej : forall r, ~ In (str_strip (str_upper r)) valid_regions ->
                 get_region str_upper str_strip set_order r w =
                 (mkWorld (stdout w ++ region_error_lines set_order r) (files w),
                  Raise (SystemExit 2))).
  { intros r Hnot. unfold get_region.
    destruct (str_mem (str_strip (str_upper r)) valid_regions) eqn:E.
    - apply str_mem_In in E. contradiction.
    - unfold iobind, print, sys_exit, raise, region_error_lines. cbn [stdout files].
      now rewrite <- app_assoc. }
  split; [reflexivity|]. split.
  { repeat constructor; simpl; intuition discriminate. }
  split.
  { split.
    - intros [w' Hw'].
      destruct (in_dec string_dec (str_strip (str_upper region)) valid_regions)
        as [Hin|Hnot]; [assumption|].
      rewrite (Hrej _ Hnot) in Hw'. discriminate.
    - intros Hin. exists w. now apply Hacc. }
  split; [apply Hacc|]. split.
  { intros Hnot. cbv zeta. split; [now apply Hrej|]. split.
    - intros r Hr. unfold region_error_lines. cbn [nth].
      apply contains_prefix. apply contains_join.
      apply Permutation_in with (l := valid_regions); [|assumption].
      now apply Permutation_sym.
    - unfold main. unfold iobind at 1. cbn [check_user_input length Nat.eqb negb ret].
      unfold iobind at 1. cbn [lift argv_at nth_error].
      unfold iobind at 1. now rewrite (Hrej _ Hnot). }
  split; [|split].
  - apply Hacc. rewrite Hnorm by reflexivity. vm_compute. tauto.
  - apply Hacc. rewrite Hnorm by reflexivity. vm_compute. tauto.
  - rewrite Hrej; [reflexivity|]. rewrite Hnorm by reflexivity.
    vm_compute. intuition discriminate.
Qed.

Lemma get_region_accepts_iff_witness :
  get_region upper strip (fun l => l) "na1" (mkWorld [] []) =
  (mkWorld [] [], Ok "na1").
Proof.
  apply (@get_region_accepts_iff (fun _ _ => Ok PNull) upper strip (fun l => l)
           "" (fun _ => "")
           (mkWatcher (fun _ _ => Raise (ApiError 503))
                      (fun _ _ _ => Ok []) (fun _ _ => Raise (ApiError 503)))
           "collect_ranked_stats.py" "na1" "Zenith" (mkWorld [] [])).
  - intros s _. split; reflexivity.
  - apply Permutation_refl.
Defined.

(** C9: when the lookup raises an API error whose status is not 404,
    [get_summoner] prints nothing, returns no player and does not exit; it
    fails with the unbound-local error on [summoner], not with the API
    error it caught. *)
Theorem get_summoner_unbound (watcher : LolWatcher)
    (region summoner_name : string) (status_code : Z) (w : world) :
  summoner_by_name watcher region summoner_name = Raise (ApiError status_code) ->
  status_code <> 404%Z ->
  get_summoner watcher region summoner_name w =
  (w, Raise (UnboundLocalError "summoner")).
Proof.
  intros Hcall Hcode. unfold get_summoner, iobind. rewrite Hcall.
  apply Z.eqb_neq in Hcode. rewrite Hcode. reflexivity.
Qed.

Lemma get_summoner_unbound_witness :
  get_summoner
    (mkWatcher (fun _ _ => Raise (ApiError 429))
               (fun _ _ _ => Ok []) (fun _ _ => Raise (ApiError 429)))
    "NA1" "Zenith" (mkWorld [] []) =
  (mkWorld [] [], Raise (UnboundLocalError "summoner")).
Proof.
  apply (@get_summoner_unbound _ "NA1" "Zenith" 429%Z).
  - reflexivity.
  - discriminate.
Defined.

(** C10: with no match reference the loop of [collect_data] leaves the
    empty frame, and [collect_data] then fails in [get_runes] with a
    [KeyError] for the missing ['perks.styles'] column: a batch is never
    assembled from zero matches.  A run of [main] for a player without
    ranked matches ends with that error and writes nothing. *)
Theorem collect_data_no_matches (watcher : LolWatcher) (region : string)
    (puuid : pyobj) :
  collect_rows watcher region puuid [] empty_frame = Ok empty_frame /\
  get_runes empty_frame = Raise (KeyError [LStr "perks.styles"]) /\
  collect_data watcher region [] puuid = Raise (KeyError [LStr "perks.styles"]) /\
  forall (lit_get_name : pyobj -> string -> res pyobj)
         (str_upper str_strip : string -> string)
         (set_order : list string -> list string)
         (time_str : string) (py_format : pyobj -> string)
         (prog name : string) (summoner : dict) (w : world),
    In (str_strip (str_upper region)) valid_regions ->
    summoner_by_name watcher region name = Ok summoner ->
    dict_get "puuid" summoner = Some puuid ->
    match_matchlist_by_puuid watcher region puuid 420 = Ok [] ->
    main lit_get_name str_upper str_strip set_order time_str py_format watcher
         [prog; region; name] w =
    (w, Raise (KeyError [LStr "perks.styles"])).
Proof.
  repeat split.
  intros lit_get_name str_upper str_strip set_order time_str py_format
         prog name summoner w Hregion Hsummoner Hpuuid Hmatches.
  apply str_mem_In in Hregion.
  unfold main, iobind, get_region, get_summoner, get_puuid, subscript,
    get_last_20_match_ids, lift, ret.
  cbn [check_user_input length Nat.eqb negb ret argv_at nth_error].
  rewrite Hregion. cbn [ret]. rewrite Hsummoner. cbv [iobind ret].
  rewrite Hpuuid, Hmatches. reflexivity.
Qed.

Lemma collect_data_no_matches_witness :
  main (fun _ _ => Ok PNull) upper strip (fun l => l) "20230101-120000"
       (fun _ => "Zenith") idle_watcher
       ["collect_ranked_stats.py"; "NA1"; "Zenith"] (mkWorld [] []) =
  (mkWorld [] [], Raise (KeyError [LStr "perks.styles"])).
Proof.
  apply (proj2 (proj2 (proj2
           (@collect_data_no_matches idle_watcher "NA1" (PStr "p-1"))))
           (fun _ _ => Ok PNull) upper strip (fun l => l) "20230101-120000"
           (fun _ => "Zenith") "collect_ranked_stats.py" "Zenith"
           [("puuid", PStr "p-1"); ("name", PStr "Zenith")] (mkWorld [] [])).
  - vm_compute. tauto.
  - reflexivity.
  - reflexivity.
  - reflexivity.
Defined.

(* ================================================================== *)
(** * Frames built from Python lists *)
(* ================================================================== *)

Ltac bool_arith :=
  repeat match goal with
         | |- context [(?a <=? ?b)%nat] => destruct (Nat.leb_spec a b)
         | |- context [(?a <? ?b)%nat] => destruct (Nat.ltb_spec a b)
         | |- context [(?a =? ?b)%nat] => destruct (Nat.eqb_spec a b)
         end; cbn [andb orb negb]; try reflexivity; try lia.

Lemma find_col_positions (f : nat -> Series) (j a k : nat) :
  find_col (LInt j) (map (fun i => (LInt i, f i)) (seq a k)) =
  if ((a <=? j) && (j <? a + k))%nat then Some (f j) else None.
Proof.
  revert a. induction k as [|k IH]; intros a; cbn [seq map find_col label_eqb].
  - bool_arith.
  - rewrite IH. destruct (Nat.eqb_spec j a) as [->|Hne]; bool_arith.
Qed.

Lemma getitem_from_lists (rows : list (list pyobj)) (j : nat) :
  getitem (from_lists rows) (LInt j) =
  if (j <? max_width rows)%nat then Ok (map (fun r => nth j r PNull) rows)
  else Raise (KeyError [LInt j]).
Proof.
  unfold getitem, from_lists. cbn [cols]. rewrite find_col_positions.
  cbn [Nat.leb andb Nat.add]. now destruct (j <? max_width rows)%nat.
Qed.

Lemma find_col_keys (f : string -> Series) (k : string) (keys : list string) :
  find_col (LStr k) (map (fun x => (LStr x, f x)) keys) =
  if str_mem k keys then Some (f k) else None.
Proof.
  induction keys as [|a keys IH]; [reflexivity|].
  cbn [map find_col label_eqb]. unfold str_mem. cbn [existsb].
  destruct (String.eqb_spec k a) as [->|Hne]; [reflexivity | exact IH].
Qed.

Lemma getitem_from_records (ds : list dict) (k : string) :
  getitem (from_records ds) (LStr k) =
  if str_mem k (unique_keys ds) then Ok (map (dict_get_default k) ds)
  else Raise (KeyError [LStr k]).
Proof.
  unfold getitem, from_records. cbn [cols]. rewrite find_col_keys.
  now destruct (str_mem k (unique_keys ds)).
Qed.

Lemma in_add_unique (k : string) (ks seen : list string) :
  In k (fold_left add_unique ks seen) <-> In k seen \/ In k ks.
Proof.
  revert seen. induction ks as [|a ks IH]; intros seen; cbn [fold_left].
  - simpl. tauto.
  - rewrite IH. unfold add_unique. destruct (str_mem a seen) eqn:E.
    + apply str_mem_In in E. simpl. intuition (subst; auto).
    + rewrite in_app_iff. simpl. tauto.
Qed.

Lemma in_fold_keys (k : string) (ds : list dict) (seen : list string) :
  In k (fold_left (fun seen d => fold_left add_unique (dict_keys d) seen) ds seen)
  <-> In k seen \/ exists d, In d ds /\ In k (dict_keys d).
Proof.
  revert seen. induction ds as [|d ds IH]; intros seen; cbn [fold_left].
  - split; [tauto|]. intros [H|[d [[] _]]]. exact H.
  - rewrite IH, in_add_unique. split.
    + intros [[H|H]|[d' [Hd' Hk]]]; [now left | right; exists d; simpl; tauto |
        right; exists d'; simpl; tauto].
    + intros [H|[d' [[<-|Hd'] Hk]]]; [tauto | tauto | right; eauto].
Qed.

Lemma in_unique_keys (k : string) (ds : list dict) :
  In k (unique_keys ds) <-> exists d, In d ds /\ In k (dict_keys d).
Proof.
  unfold unique_keys. rewrite in_fold_keys. simpl. tauto.
Qed.

Lemma has_key_In (k : string) (d : dict) :
  has_key k d = true <-> In k (dict_keys d).
Proof.
  unfold has_key. induction d as [|[k' v] d IH]; cbn [dict_get dict_keys map fst In].
  - split; [discriminate | contradiction].
  - destruct (String.eqb_spec k k') as [->|Hne].
    + split; auto.
    + rewrite IH. unfold dict_keys. split; [tauto|]. intros [H|H]; [congruence | exact H].
Qed.

Lemma max_width_fold (rows : list (list pyobj)) (q acc : nat) :
  Forall (fun r => length r = q) rows ->
  fold_left (fun k r => Nat.max k (length r)) rows acc =
  match rows with [] => acc | _ => Nat.max acc q end.
Proof.
  intros H. revert acc. induction H as [|r rows Hr Hrows IH]; intros acc;
    cbn [fold_left]; [reflexivity|].
  rewrite IH, Hr. destruct rows; lia.
Qed.

Lemma max_width_uniform (rows : list (list pyobj)) (q : nat) :
  rows <> [] -> Forall (fun r => length r = q) rows -> max_width rows = q.
Proof.
  intros Hne H. unfold max_width. rewrite (max_width_fold 0 H).
  destruct rows; [congruence | lia].
Qed.

(** ** [json_normalize] on well-shaped input *)

Lemma normalise_flat (d : dict) :
  flat d = true -> normalise_json_ordered d = d.
Proof.
  unfold flat, normalise_json_ordered. intros H. rewrite forallb_forall in H.
  rewrite (filter_all _ d) by exact H.
  rewrite (filter_nil (fun kv => is_dict (snd kv)) d).
  - reflexivity.
  - intros kv Hkv. apply H in Hkv. now apply negb_true_iff in Hkv.
Qed.

Lemma simple_flat (d : dict) :
  flat d = true -> simple_json_normalize (PDict d) = PDict d.
Proof. intros H. cbn [simple_json_normalize]. now rewrite normalise_flat. Qed.

Lemma mapM_as_record (ds : list dict) : mapM as_record (map PDict ds) = Ok ds.
Proof.
  induction ds as [|d ds IH]; [reflexivity|].
  cbn [map mapM as_record bind]. now rewrite IH.
Qed.

Lemma mapM_as_row (rows : list (list pyobj)) : mapM as_row (map PList rows) = Ok rows.
Proof.
  induction rows as [|r rows IH]; [reflexivity|].
  cbn [map mapM as_row bind]. now rewrite IH.
Qed.

Lemma map_fixed {A : Type} (f : A -> A) (l : list A) :
  Forall (fun x => f x = x) l -> map f l = l.
Proof.
  induction 1 as [|x l Hx Hl IH]; [reflexivity|]. cbn [map]. now rewrite Hx, IH.
Qed.

Lemma json_normalize_records (ds : list dict) :
  Forall (fun d => flat d = true) ds ->
  json_normalize (map PDict ds) = Ok (from_records ds).
Proof.
  intros H. unfold json_normalize. rewrite map_fixed.
  - destruct ds as [|d ds]; [reflexivity|].
    change (frame_of_list (map PDict (d :: ds)))
      with (r <- mapM as_record (map PDict (d :: ds)) ;; Ok (from_records r)).
    now rewrite mapM_as_record.
  - apply Forall_map. revert H. apply Forall_impl. intros d. apply simple_flat.
Qed.

Lemma json_normalize_lists (rows : list (list pyobj)) :
  Forall (Forall (fun v => simple_json_normalize v = v)) rows ->
  json_normalize (map PList rows) = Ok (from_lists rows).
Proof.
  intros H. unfold json_normalize. rewrite map_fixed.
  - destruct rows as [|r rows]; [reflexivity|].
    change (frame_of_list (map PList (r :: rows)))
      with (rs <- mapM as_row (map PList (r :: rows)) ;; Ok (from_lists rs)).
    now rewrite mapM_as_row.
  - apply Forall_map. revert H. apply Forall_impl. intros r Hr.
    cbn [simple_json_normalize]. now rewrite (map_fixed _ Hr).
Qed.

(* ================================================================== *)
(** * Rune unpacking *)
(* ================================================================== *)

Lemma is_selection_inv (s : pyobj) :
  is_selection s = true ->
  s = PDict (entries_of s) /\ flat (entries_of s) = true /\
  has_key "perk" (entries_of s) = true.
Proof.
  destruct s; cbn [is_selection entries_of]; try discriminate.
  intros H. apply andb_true_iff in H. tauto.
Qed.

Lemma is_branch_inv (b : pyobj) :
  is_branch b = true ->
  b = PDict (entries_of b) /\ flat (entries_of b) = true /\
  has_key "selections" (entries_of b) = true /\
  dict_get_default "selections" (entries_of b) =
    PList (items_of (dict_get_default "selections" (entries_of b))) /\
  forallb is_selection
    (items_of (dict_get_default "selections" (entries_of b))) = true.
Proof.
  unfold is_branch, branch_selections. destruct b; try discriminate.
  destruct (flat entries) eqn:F; try discriminate. cbn [entries_of].
  unfold has_key, dict_get_default.
  destruct (dict_get "selections" entries) as [[| | | |sels|]|]; try discriminate.
  destruct (forallb is_selection sels) eqn:S; try discriminate.
  intros _. cbn [items_of]. auto.
Qed.

Lemma selection_stable (s : pyobj) :
  is_selection s = true -> simple_json_normalize s = s.
Proof.
  intros H. destruct (is_selection_inv _ H) as [E [F _]].
  rewrite E. now apply simple_flat.
Qed.

Lemma branch_stable (b : pyobj) :
  is_branch b = true -> simple_json_normalize b = b.
Proof.
  intros H. destruct (is_branch_inv _ H) as [E [F _]].
  rewrite E. now apply simple_flat.
Qed.

Lemma nat_list_eqb_eq (a b : list nat) : nat_list_eqb a b = true -> a = b.
Proof.
  revert b. induction a as [|x a IH]; intros [|y b]; cbn [nat_list_eqb];
    try discriminate; [reflexivity|].
  intros H. apply andb_true_iff in H. destruct H as [Hx Hab].
  apply Nat.eqb_eq in Hx. subst. f_equal. now apply IH.
Qed.

Lemma has_shape_inv (shape : list nat) (c : pyobj) :
  has_shape shape c = true ->
  c = PList (items_of c) /\ forallb is_branch (items_of c) = true /\
  map (fun b => length (items_of (dict_get_default "selections" (entries_of b))))
      (items_of c) = shape.
Proof.
  destruct c; cbn [has_shape items_of]; try discriminate.
  intros H. apply andb_true_iff in H. destruct H as [Hb Hs].
  apply nat_list_eqb_eq in Hs. auto.
Qed.

Lemma shape_rows (shape : list nat) (styles : Series) :
  forallb (has_shape shape) styles = true ->
  styles = map PList (map items_of styles) /\
  Forall (fun r => length r = length shape /\ forallb is_branch r = true)
         (map items_of styles).
Proof.
  intros H. rewrite forallb_forall in H. split.
  - rewrite map_map. symmetry. rewrite <- (map_id styles) at 2.
    apply map_ext_in. intros c Hc.
    destruct (has_shape_inv _ _ (H c Hc)) as [E _]. now rewrite <- E.
  - apply Forall_map. apply Forall_forall. intros c Hc.
    destruct (has_shape_inv _ _ (H c Hc)) as [_ [Hb Hs]]. split; [|exact Hb].
    rewrite <- Hs. now rewrite length_map.
Qed.

Lemma shape_selections (shape : list nat) (styles : Series) (b : nat) :
  forallb (has_shape shape) styles = true ->
  (b < length shape)%nat ->
  Forall (fun r => length r = nth b shape 0%nat /\ forallb is_selection r = true)
         (map (selections_of b) styles).
Proof.
  intros H Hb. rewrite forallb_forall in H.
  apply Forall_map. apply Forall_forall. intros c Hc.
  destruct (has_shape_inv _ _ (H c Hc)) as [_ [Hbr Hs]].
  assert (Hlen : length (items_of c) = length shape)
    by (rewrite <- Hs; now rewrite length_map).
  unfold selections_of. split.
  - rewrite <- Hs.
    change 0%nat with
      ((fun b => length (items_of (dict_get_default "selections" (entries_of b)))) PNull).
    now rewrite map_nth.
  - rewrite forallb_forall in Hbr.
    apply is_branch_inv, Hbr. apply nth_In. lia.
Qed.

Lemma perk_column_uniform (rows : list (list pyobj)) (q j : nat) :
  rows <> [] ->
  Forall (fun r => length r = q /\ forallb is_selection r = true) rows ->
  perk_column (from_lists rows) j =
  if (j <? q)%nat
  then Ok (map (fun r => dict_get_default "perk" (entries_of (nth j r PNull))) rows)
  else Raise (KeyError [LInt j]).
Proof.
  intros Hne H. unfold perk_column. rewrite getitem_from_lists.
  rewrite (@max_width_uniform rows q Hne)
    by (revert H; apply Forall_impl; tauto).
  destruct (Nat.ltb_spec j q) as [Hj|Hj]; [|reflexivity]. cbn [bind].
  assert (E : map (fun r => nth j r PNull) rows =
              map PDict (map (fun r => entries_of (nth j r PNull)) rows)).
  { rewrite map_map. apply map_ext_in. intros r Hr.
    rewrite Forall_forall in H. destruct (H r Hr) as [Hlen Hsel].
    rewrite forallb_forall in Hsel. apply is_selection_inv, Hsel, nth_In. lia. }
  assert (Hsel : forall r, In r rows -> is_selection (nth j r PNull) = true).
  { intros r Hr. rewrite Forall_forall in H. destruct (H r Hr) as [Hlen Hs].
    rewrite forallb_forall in Hs. apply Hs, nth_In. lia. }
  rewrite E, json_normalize_records.
  - cbn [bind]. rewrite getitem_from_records.
    replace (str_mem "perk" _) with true; [now rewrite map_map|].
    symmetry. apply str_mem_In, in_unique_keys.
    destruct rows as [|r rows]; [congruence|].
    exists (entries_of (nth j r PNull)). split; [now left|].
    apply has_key_In, is_selection_inv, Hsel. now left.
  - apply Forall_map, Forall_forall. intros r Hr.
    now apply is_selection_inv, Hsel.
Qed.

Lemma selections_frame_uniform (rows : list (list pyobj)) (m i : nat) :
  rows <> [] ->
  Forall (fun r => length r = m /\ forallb is_branch r = true) rows ->
  selections_frame (from_lists rows) i =
  if (i <? m)%nat
  then Ok (from_lists
             (map (fun r => items_of (dict_get_default "selections"
                                        (entries_of (nth i r PNull)))) rows))
  else Raise (KeyError [LInt i]).
Proof.
  intros Hne H. unfold selections_frame. rewrite getitem_from_lists.
  rewrite (@max_width_uniform rows m Hne)
    by (revert H; apply Forall_impl; tauto).
  destruct (Nat.ltb_spec i m) as [Hi|Hi]; [|reflexivity]. cbn [bind].
  assert (Hbr : forall r, In r rows -> is_branch (nth i r PNull) = true).
  { intros r Hr. rewrite Forall_forall in H. destruct (H r Hr) as [Hlen Hs].
    rewrite forallb_forall in Hs. apply Hs, nth_In. lia. }
  assert (E : map (fun r => nth i r PNull) rows =
              map PDict (map (fun r => entries_of (nth i r PNull)) rows)).
  { rewrite map_map. apply map_ext_in. intros r Hr.
    now apply is_branch_inv, Hbr. }
  rewrite E, json_normalize_records.
  - cbn [bind]. rewrite getitem_from_records.
    replace (str_mem "selections" _) with true.
    + cbn [bind]. rewrite map_map.
      rewrite <- json_normalize_lists.
      * f_equal. rewrite map_map. apply map_ext_in. intros r Hr.
        now apply is_branch_inv, Hbr.
      * apply Forall_map, Forall_forall. intros r Hr.
        apply Forall_forall. intros s Hs. apply selection_stable.
        destruct (is_branch_inv _ (Hbr r Hr)) as [_ [_ [_ [_ Hall]]]].
        rewrite forallb_forall in Hall. now apply Hall.
    + symmetry. apply str_mem_In, in_unique_keys.
      destruct rows as [|r rows]; [congruence|].
      exists (entries_of (nth i r PNull)). split; [now left|].
      apply has_key_In, is_branch_inv, Hbr. now left.
  - apply Forall_map, Forall_forall. intros r Hr.
    now apply is_branch_inv, Hbr.
Qed.

Lemma perk_columns_of (styles : Series) (b j : nat) :
  map (fun r => dict_get_default "perk" (entries_of (nth j r PNull)))
      (map (selections_of b) styles) = map (perk_of b j) styles.
Proof. now rewrite map_map. Qed.

(** [get_runes] on a batch whose trees share one shape. *)
Lemma get_runes_uniform (data : DataFrame) (styles : Series) (shape : list nat) :
  getitem data (LStr "perks.styles") = Ok styles ->
  styles <> [] ->
  forallb (has_shape shape) styles = true ->
  get_runes data = runes_outcome data styles shape.
Proof.
  intros Hget Hne Hshape. unfold get_runes. rewrite Hget. cbn [bind].
  destruct (shape_rows _ _ Hshape) as [E Hrows].
  assert (Hne' : map items_of styles <> [])
    by (destruct styles; [congruence | discriminate]).
  rewrite E at 1. rewrite json_normalize_lists.
  2:{ apply Forall_map, Forall_forall. intros c Hc.
      rewrite forallb_forall in Hshape.
      destruct (has_shape_inv _ _ (Hshape c Hc)) as [_ [Hb _]].
      rewrite forallb_forall in Hb. apply Forall_forall. intros b Hin.
      now apply branch_stable, Hb. }
  cbn [bind].
  rewrite !(selections_frame_uniform _ Hne' Hrows).
  rewrite !map_map.
  change (fun x : pyobj =>
            items_of (dict_get_default "selections"
                        (entries_of (nth 0 (items_of x) PNull))))
    with (selections_of 0).
  change (fun x : pyobj =>
            items_of (dict_get_default "selections"
                        (entries_of (nth 1 (items_of x) PNull))))
    with (selections_of 1).
  assert (Hne0 : forall b, map (selections_of b) styles <> [])
    by (intros b; destruct styles; [congruence | discriminate]).
  destruct shape as [|p rest]; [reflexivity|].
  cbn [length Nat.ltb Nat.leb bind runes_outcome].
  pose proof (@shape_selections (p :: rest) styles 0 Hshape) as H0.
  cbn [length nth] in H0. specialize (H0 (Nat.lt_0_succ _)).
  rewrite !(perk_column_uniform _ (Hne0 0%nat) H0).
  destruct p as [|[|[|[|p]]]]; try reflexivity.
  cbn [Nat.ltb Nat.leb bind].
  destruct rest as [|s rest]; [reflexivity|].
  cbn [length bind].
  pose proof (@shape_selections (S (S (S (S p))) :: s :: rest) styles 1 Hshape) as H1.
  cbn [length nth] in H1. specialize (H1 ltac:(lia)).
  rewrite !(perk_column_uniform _ (Hne0 1%nat) H1).
  destruct s as [|[|s]]; try reflexivity.
  cbn [Nat.ltb Nat.leb bind]. rewrite !perk_columns_of. reflexivity.
Qed.

(** ** Appending the rune columns *)

Lemma find_col_In (l : label) (cs : list (label * Series)) (s : Series) :
  find_col l cs = Some s -> In (l, s) cs.
Proof.
  induction cs as [|[l' s'] cs IH]; cbn [find_col]; [discriminate|].
  destruct (label_eqb l l') eqn:E.
  - apply label_eqb_eq in E. subst. intros H. injection H as ->. now left.
  - intros H. right. now apply IH.
Qed.

Lemma getitem_In (data : DataFrame) (l : label) (s : Series) :
  getitem data l = Ok s -> In (l, s) (cols data).
Proof.
  unfold getitem. destruct (find_col l (cols data)) eqn:E; [|discriminate].
  intros H. injection H as ->. now apply find_col_In.
Qed.

Lemma wf_frame_lengths (data : DataFrame) :
  wf_frame data = true ->
  forall c, In c (cols data) -> length (snd c) = nrows data.
Proof.
  unfold wf_frame. intros H c Hc. apply andb_true_iff in H. destruct H as [_ H].
  rewrite forallb_forall in H. now apply Nat.eqb_eq, H.
Qed.

Lemma pad_exact (n : nat) (s : Series) : length s = n -> pad n s = s.
Proof.
  intros <-. unfold pad. rewrite Nat.sub_diag. cbn [repeat]. apply app_nil_r.
Qed.

Lemma pad_cols_exact (n : nat) (cs : list (label * Series)) :
  (forall c, In c cs -> length (snd c) = n) ->
  map (fun c => (fst c, pad n (snd c))) cs = cs.
Proof.
  intros H. rewrite <- (map_id cs) at 2. apply map_ext_in. intros [l s] Hc.
  cbn [fst snd]. f_equal. apply pad_exact. exact (H _ Hc).
Qed.

Lemma rune_columns_length (styles : Series) :
  forall c, In c (rune_columns styles) -> length (snd c) = length styles.
Proof.
  intros c Hc. unfold rune_columns in Hc. cbn [In] in Hc.
  repeat (destruct Hc as [<-|Hc]; [cbn [snd]; apply length_map|]).
  contradiction.
Qed.

Lemma concat_series_runes (styles : Series) :
  concat_series (rune_columns styles) = mkFrame (length styles) (rune_columns styles).
Proof.
  unfold concat_series.
  assert (E : fold_left Nat.max
                (map (fun c => length (snd c)) (rune_columns styles)) 0%nat
              = length styles).
  { unfold rune_columns. cbn [map fold_left snd]. rewrite !length_map. lia. }
  rewrite E. f_equal. apply pad_cols_exact, rune_columns_length.
Qed.

(** On a well-formed frame the six columns are appended as they are. *)
Lemma concat_runes_wf (data : DataFrame) (styles : Series) (l : label) :
  wf_frame data = true ->
  getitem data l = Ok styles ->
  concat_columns data (concat_series (rune_columns styles)) =
  mkFrame (nrows data) (cols data ++ rune_columns styles).
Proof.
  intros Hwf Hget. rewrite concat_series_runes.
  assert (Hlen : length styles = nrows data).
  { apply getitem_In in Hget. exact (wf_frame_lengths _ Hwf _ Hget). }
  unfold concat_columns. cbn [nrows cols]. rewrite Hlen, Nat.max_id. f_equal.
  apply pad_cols_exact. intros c Hc. apply in_app_or in Hc. destruct Hc as [Hc|Hc].
  - now apply wf_frame_lengths.
  - rewrite <- Hlen. now apply rune_columns_length.
Qed.

(** C4, counterexample: a tree with three style branches is unpacked
    without any error, and a primary branch of three selections fails with
    the [KeyError] of the position that is not there. *)
Lemma get_runes_no_shape_error :
  (exists out,
     get_runes (one_row [("perks.styles", three_branch_tree)]) = Ok out) /\
  get_runes (one_row [("perks.styles", short_primary_tree)]) =
  Raise (KeyError [LInt 3]).
Proof. split; [eexists|]; vm_compute; reflexivity. Qed.

(** C4, amended: [get_runes] validates nothing and has no error of its
    own.  On a batch whose trees share one shape it fails exactly when that
    shape has fewer than 2 style branches, fewer than 4 selections in the
    first branch or fewer than 2 in the second, and the failure is the
    [KeyError] of the first position it indexes that is missing; with
    more branches or selections than that it succeeds, ignoring the rest. *)
Theorem get_runes_positional (data : DataFrame) (styles : Series)
    (shape : list nat) :
  getitem data (LStr "perks.styles") = Ok styles ->
  styles <> [] ->
  forallb (has_shape shape) styles = true ->
  get_runes data = runes_outcome data styles shape /\
  ((length shape < 2 \/ nth 0 shape 0 < 4 \/ nth 1 shape 0 < 2)%nat ->
   exists j, (j < 4)%nat /\ get_runes data = Raise (KeyError [LInt j])) /\
  (nth 0 shape 0%nat = 3%nat -> get_runes data = Raise (KeyError [LInt 3])) /\
  ((2 <= length shape /\ 4 <= nth 0 shape 0 /\ 2 <= nth 1 shape 0)%nat ->
   get_runes data =
   Ok (concat_columns data (concat_series (rune_columns styles)))).
Proof.
  intros Hget Hne Hshape.
  rewrite (@get_runes_uniform _ _ _ Hget Hne Hshape).
  split; [reflexivity|]. unfold runes_outcome. split.
  - intros H. destruct shape as [|p [|s rest]]; cbn [length nth] in H.
    + exists 0%nat. split; [lia | reflexivity].
    + destruct (Nat.ltb_spec p 4).
      * exists p. split; [lia | reflexivity].
      * exists 1%nat. split; [lia | reflexivity].
    + destruct (Nat.ltb_spec p 4).
      * exists p. split; [lia | reflexivity].
      * destruct (Nat.ltb_spec s 2).
        -- exists s. split; [lia | reflexivity].
        -- lia.
  - split.
    { intros H3. destruct shape as [|p rest]; cbn [nth] in H3; [discriminate|].
      now subst p. }
    intros [Hl [Hp Hs]]. destruct shape as [|p [|s rest]]; cbn [length nth] in *;
      try lia.
    destruct (Nat.ltb_spec p 4); [lia|]. destruct (Nat.ltb_spec s 2); [lia|].
    reflexivity.
Qed.

Lemma get_runes_positional_witness :
  get_runes (one_row [("perks.styles", short_primary_tree)]) =
  Raise (KeyError [LInt 3]).
Proof.
  refine (proj1 (proj2 (proj2
    (@get_runes_positional (one_row [("perks.styles", short_primary_tree)])
       [short_primary_tree] [3; 2]%nat _ _ _))) _).
  - vm_compute. reflexivity.
  - discriminate.
  - vm_compute. reflexivity.
  - reflexivity.
Defined.

(** ** Renaming the shard columns *)

Lemma find_col_app (l : label) (a b : list (label * Series)) :
  find_col l (a ++ b) =
  match find_col l a with Some s => Some s | None => find_col l b end.
Proof.
  induction a as [|[l' s'] a IH]; cbn [app find_col]; [reflexivity|].
  destruct (label_eqb l l'); [reflexivity | exact IH].
Qed.

Lemma find_col_absent (l : label) (cs : list (label * Series)) :
  ~ In l (map fst cs) -> find_col l cs = None.
Proof.
  induction cs as [|[l' s'] cs IH]; cbn [map fst find_col In]; [reflexivity|].
  intros H. destruct (label_eqb l l') eqn:E.
  - apply label_eqb_eq in E. subst. exfalso. apply H. now left.
  - apply IH. intros Hin. apply H. now right.
Qed.

Lemma rename_label_cases (l : label) :
  rename_label new_names l = l \/ In (rename_label new_names l) shard_names.
Proof.
  unfold new_names, shard_names. cbn [rename_label map snd].
  repeat match goal with
         | |- context [label_eqb ?a ?b] => destruct (label_eqb a b)
         end; cbn [In];
    first [ left; reflexivity
          | right; left; reflexivity
          | right; right; left; reflexivity
          | right; right; right; left; reflexivity ].
Qed.

Lemma rename_label_old (old new : label) :
  In (old, new) new_names -> rename_label new_names old = new.
Proof.
  unfold new_names. cbn [In]. intros [H|[H|[H|[]]]]; injection H as <- <-; reflexivity.
Qed.

(** A new shard name, absent before, finds after the renaming the column
    that had the old name. *)
Lemma find_col_renamed (old new : label) (cs : list (label * Series)) :
  In (old, new) new_names ->
  ~ In new (map fst cs) ->
  find_col new (map (fun c => (rename_label new_names (fst c), snd c)) cs) =
  find_col old cs.
Proof.
  intros Hon Hfresh. induction cs as [|[l s] cs IH]; [reflexivity|].
  cbn [map find_col fst snd]. cbn [map fst In] in Hfresh.
  rewrite IH by tauto.
  assert (Hl : l <> new) by (intros ->; apply Hfresh; now left).
  replace (label_eqb new (rename_label new_names l)) with (label_eqb old l);
    [reflexivity|].
  destruct (label_eqb old l) eqn:E.
  - apply label_eqb_eq in E. subst l. rewrite (rename_label_old Hon).
    now rewrite label_eqb_refl.
  - symmetry. destruct (label_eqb new (rename_label new_names l)) eqn:E'; [|reflexivity].
    apply label_eqb_eq in E'. exfalso.
    assert (Hne : old <> l) by (intros ->; rewrite label_eqb_refl in E; discriminate).
    clear - Hon Hl Hne E'. unfold new_names in *. cbn [In rename_label] in *.
    destruct Hon as [H|[H|[H|[]]]]; injection H as <- <-;
      repeat match type of E' with
             | context [label_eqb ?a ?b] =>
                 let X := fresh in
                 destruct (label_eqb a b) eqn:X;
                 [apply label_eqb_eq in X; subst|]
             end; congruence.
Qed.

Lemma columns_rename (data : DataFrame) :
  columns (rename_shard_columns data) =
  map (rename_label new_names) (columns data).
Proof.
  unfold rename_shard_columns, rename_columns, columns. cbn [cols].
  now rewrite !map_map.
Qed.


Lemma cols_rename_runes (data : DataFrame) (styles : Series) :
  cols (rename_shard_columns
          (mkFrame (nrows data) (cols data ++ rune_columns styles))) =
  map (fun c => (rename_label new_names (fst c), snd c)) (cols data)
  ++ rune_columns styles.
Proof.
  unfold rename_shard_columns, rename_columns. cbn [cols]. now rewrite map_app.
Qed.

Lemma fresh_after_rename (data : DataFrame) (l : label) :
  In l rune_names ->
  ~ In l (columns data) ->
  ~ In l (map fst (map (fun c => (rename_label new_names (fst c), snd c))
                       (cols data))).
Proof.
  intros Hr Hfresh Hin. rewrite map_map in Hin. cbn [fst] in Hin.
  apply in_map_iff in Hin. destruct Hin as [c [Hc Hin]].
  destruct (rename_label_cases (fst c)) as [E|E].
  - apply Hfresh. unfold columns. apply in_map_iff. exists c. split; congruence.
  - rewrite Hc in E. clear - Hr E. unfold rune_names, shard_names in *.
    cbn in Hr, E. intuition (subst; discriminate).
Qed.

Lemma find_rune_column (styles : Series) (c : label * Series) :
  In c (rune_columns styles) ->
  find_col (fst c) (rune_columns styles) = Some (snd c).
Proof.
  unfold rune_columns. cbn [In]. intros H.
  repeat (destruct H as [<-|H]; [reflexivity|]). contradiction.
Qed.

(** C5: on a well-formed batch whose trees all have 2 style branches with
    4 and 2 selections, [get_runes] succeeds; it leaves every input column
    as it was and appends six columns holding the perk ids at primary
    positions 0..3 and secondary positions 0..1.  After
    [rename_shard_columns] the three stat-shard columns carry the names
    [runeShardDefense], [runeShardFlex], [runeShardOffense] with the shard
    ids unchanged, so that exactly these nine names are new. *)
Theorem get_runes_conforming (data : DataFrame)
    (styles defense flex offense : Series) :
  wf_frame data = true ->
  styles <> [] ->
  getitem data (LStr "perks.styles") = Ok styles ->
  forallb (has_shape [4; 2]%nat) styles = true ->
  getitem data (LStr "perks.statPerks.defense") = Ok defense ->
  getitem data (LStr "perks.statPerks.flex") = Ok flex ->
  getitem data (LStr "perks.statPerks.offense") = Ok offense ->
  (forall l, In l (rune_names ++ shard_names) -> ~ In l (columns data)) ->
  exists out,
    get_runes data = Ok out /\
    nrows out = nrows data /\
    cols out = cols data ++ rune_columns styles /\
    (forall l, In l (columns (rename_shard_columns out)) /\ ~ In l (columns data)
               <-> In l (rune_names ++ shard_names)) /\
    length (rune_names ++ shard_names) = 9%nat /\
    NoDup (rune_names ++ shard_names) /\
    Forall (fun c => getitem (rename_shard_columns out) (fst c) = Ok (snd c))
           (rune_columns styles) /\
    getitem (rename_shard_columns out) (LStr "runeShardDefense") = Ok defense /\
    getitem (rename_shard_columns out) (LStr "runeShardFlex") = Ok flex /\
    getitem (rename_shard_columns out) (LStr "runeShardOffense") = Ok offense.
Proof.
  intros Hwf Hne Hget Hshape Hdef Hflex Hoff Hfresh.
  exists (mkFrame (nrows data) (cols data ++ rune_columns styles)).
  assert (Hrun : get_runes data =
                 Ok (mkFrame (nrows data) (cols data ++ rune_columns styles))).
  { rewrite (@get_runes_uniform _ _ _ Hget Hne Hshape). cbn [runes_outcome Nat.ltb Nat.leb].
    now rewrite (@concat_runes_wf _ _ _ Hwf Hget). }
  assert (Hshard : forall old new s,
             In (old, new) new_names -> getitem data old = Ok s ->
             getitem (rename_shard_columns
                        (mkFrame (nrows data) (cols data ++ rune_columns styles)))
                     new = Ok s).
  { intros old new s Hon Hold. unfold getitem. rewrite cols_rename_runes, find_col_app.
    rewrite (@find_col_renamed old new _ Hon).
    - unfold getitem in Hold. destruct (find_col old (cols data)); [exact Hold | discriminate].
    - apply Hfresh, in_or_app. right. unfold shard_names.
      apply in_map_iff. exists (old, new). now split. }
  split; [exact Hrun|]. split; [reflexivity|]. split; [reflexivity|].
  split; [|split; [reflexivity|split]].
  - intros l. rewrite columns_rename. unfold columns at 1. cbn [cols].
    rewrite map_app, map_app.
    change (map fst (rune_columns styles)) with rune_names.
    rewrite in_app_iff. split.
    + intros [[Hin|Hin] Hnot]; apply in_or_app; [|now left].
      apply in_map_iff in Hin. destruct Hin as [l0 [Hl0 Hin]].
      destruct (rename_label_cases l0) as [E|E].
      * exfalso. apply Hnot. unfold columns. congruence.
      * right. congruence.
    + intros Hin. split; [|now apply Hfresh].
      apply in_app_or in Hin. destruct Hin as [Hin|Hin]; [now right|]. left.
      unfold shard_names in Hin. apply in_map_iff in Hin.
      destruct Hin as [[old new] [Hnew Hon]]. cbn [snd] in Hnew. subst l.
      apply in_map_iff. exists old. split; [now apply rename_label_old|].
      assert (Hold : exists s, getitem data old = Ok s).
      { clear - Hon Hdef Hflex Hoff. unfold new_names in Hon. cbn [In] in Hon.
        destruct Hon as [H|[H|[H|[]]]]; injection H as <- <-; eauto. }
      destruct Hold as [s Hs]. apply getitem_In in Hs.
      apply in_map_iff. exists (old, s). now split.
  - unfold rune_names, shard_names. cbn.
    repeat constructor; cbn; intuition discriminate.
  - split.
    + apply Forall_forall. intros c Hc. unfold getitem.
      rewrite cols_rename_runes, find_col_app, find_col_absent.
      * now rewrite (@find_rune_column _ _ Hc).
      * assert (Hr : In (fst c) rune_names).
        { clear - Hc. unfold rune_columns in Hc. cbn [In] in Hc.
          repeat (destruct Hc as [<-|Hc];
                  [cbn; repeat (first [left; reflexivity | right])|]).
          contradiction. }
        apply fresh_after_rename; [exact Hr|]. apply Hfresh, in_or_app. now left.
    + split; [|split].
      * apply (Hshard (LStr "perks.statPerks.defense")); [cbn; auto | exact Hdef].
      * apply (Hshard (LStr "perks.statPerks.flex")); [cbn; auto | exact Hflex].
      * apply (Hshard (LStr "perks.statPerks.offense")); [cbn; auto | exact Hoff].
Qed.

(* ================================================================== *)
(** * Patterns *)
(* ================================================================== *)

Lemma append_empty (a b : string) :
  (a ++ b)%string = EmptyString -> a = EmptyString /\ b = EmptyString.
Proof. destruct a; cbn; [auto | discriminate]. Qed.

Lemma append_cons (a b : string) (c : ascii) (s : string) :
  (a ++ b)%string = String c s ->
  (a = EmptyString /\ b = String c s) \/
  (exists a', a = String c a' /\ s = (a' ++ b)%string).
Proof.
  destruct a as [|x a]; cbn; intros H; [now left|].
  injection H as -> <-. right. eauto.
Qed.

Lemma nullable_lang (r : regex) : nullable r = true <-> lang r EmptyString.
Proof.
  split.
  - induction r; cbn [nullable]; intros H; try discriminate.
    + constructor.
    + apply andb_true_iff in H. destruct H as [H1 H2].
      change EmptyString with (EmptyString ++ EmptyString)%string.
      constructor; auto.
    + apply orb_true_iff in H. destruct H as [H|H];
        [apply lang_alt_l | apply lang_alt_r]; auto.
    + constructor.
  - intros H. remember EmptyString as s eqn:E.
    induction H; cbn [nullable]; try discriminate; try reflexivity.
    + apply append_empty in E. destruct E. apply andb_true_iff. auto.
    + apply orb_true_iff. auto.
    + apply orb_true_iff. auto.
Qed.

Lemma deriv_sound (c : ascii) (r : regex) (s : string) :
  lang (deriv c r) s -> lang r (String c s).
Proof.
  revert s. induction r; intros s H; cbn [deriv] in H.
  - inversion H.
  - inversion H.
  - destruct (Ascii.eqb_spec c c0) as [->|]; inversion H; subst. constructor.
  - destruct (Ascii.eqb_spec c newline); inversion H; subst. now constructor.
  - destruct (in_class lo hi c) eqn:E; inversion H; subst. now constructor.
  - destruct (nullable r1) eqn:N.
    + inversion H as [| | | | | ? ? ? H1 | ? ? ? H2 | |]; subst.
      * inversion H1; subst.
        change (String c (s1 ++ s2)%string) with (String c s1 ++ s2)%string.
        constructor; auto.
      * change (String c s) with (EmptyString ++ String c s)%string.
        constructor; [now apply nullable_lang | auto].
    + inversion H; subst.
      change (String c (s1 ++ s2)%string) with (String c s1 ++ s2)%string.
      constructor; auto.
  - inversion H; subst; [apply lang_alt_l | apply lang_alt_r]; auto.
  - inversion H; subst.
    change (String c (s1 ++ s2)%string) with (String c s1 ++ s2)%string.
    constructor; auto.
Qed.

Lemma deriv_complete (c : ascii) (r : regex) (s : string) :
  lang r (String c s) -> lang (deriv c r) s.
Proof.
  intros H. remember (String c s) as str eqn:E. revert c s E.
  induction H; intros c0 s0 E; cbn [deriv]; try discriminate.
  - injection E as -> <-. rewrite Ascii.eqb_refl. constructor.
  - injection E as -> <-. destruct (Ascii.eqb_spec c0 newline); [contradiction|].
    constructor.
  - injection E as -> <-. rewrite H. constructor.
  - apply append_cons in E. destruct E as [[-> ->]|[a' [-> ->]]].
    + apply nullable_lang in H. rewrite H. apply lang_alt_r. now apply IHlang2.
    + destruct (nullable r1).
      * apply lang_alt_l. constructor; auto.
      * constructor; auto.
  - apply lang_alt_l. auto.
  - apply lang_alt_r. auto.
  - apply append_cons in E. destruct E as [[-> ->]|[a' [-> ->]]].
    + now apply IHlang2.
    + constructor; auto.
Qed.

(** The derivative matcher decides the language. *)
Lemma matches_lang (r : regex) (s : string) : matches r s = true <-> lang r s.
Proof.
  revert r. induction s as [|c s IH]; intros r; cbn [matches].
  - apply nullable_lang.
  - rewrite IH. split; [apply deriv_sound | apply deriv_complete].
Qed.

Lemma lang_any_star (s : string) : lang (Star any_char) s.
Proof.
  induction s as [|c s IH]; [constructor|].
  change (String c s) with (String c EmptyString ++ s)%string.
  constructor; [|exact IH]. unfold any_char.
  destruct (Ascii.eqb_spec c newline) as [->|Hne].
  - apply lang_alt_r. constructor.
  - apply lang_alt_l. now constructor.
Qed.

(** [re_search] finds the pattern somewhere inside the subject. *)
Lemma re_search_spec (r : regex) (s : string) :
  re_search r s = true <->
  exists a m b, s = (a ++ m ++ b)%string /\ lang r m.
Proof.
  unfold re_search. rewrite matches_lang. split.
  - intros H. inversion H as [| | | | ? ? a t _ H2 | | | |]; subst.
    inversion H2 as [| | | | ? ? m b Hm _ | | | |]; subst. eauto.
  - intros [a [m [b [-> Hm]]]].
    constructor; [apply lang_any_star|]. constructor; [exact Hm | apply lang_any_star].
Qed.

Lemma lang_word (w m : string) : lang (word w) m <-> m = w.
Proof.
  revert m. induction w as [|c w IH]; intros m; cbn [word].
  - split; [intros H; now inversion H | intros ->; constructor].
  - split.
    + intros H. inversion H as [| | | | ? ? s1 s2 H1 H2 | | | |]; subst.
      inversion H1; subst. apply IH in H2. now subst.
    + intros ->. change (String c w) with (String c EmptyString ++ w)%string.
      constructor; [constructor | now apply IH].
Qed.

(** A literal followed by a starred character is found exactly where the
    literal occurs. *)
Lemma search_literal_star (w : string) (c : ascii) (s : string) :
  re_search (Cat (word w) (Star (Chr c))) s = true <-> contains w s.
Proof.
  rewrite re_search_spec. unfold contains. split.
  - intros [a [m [b [-> Hm]]]].
    inversion Hm as [| | | | ? ? s1 s2 H1 H2 | | | |]; subst.
    apply lang_word in H1. subst. exists a, (s2 ++ b)%string.
    now rewrite append_assoc.
  - intros [a [b ->]]. exists a, w, b. split; [reflexivity|].
    rewrite <- (append_nil_r w) at 2.
    constructor; [now apply lang_word | constructor].
Qed.

(** The same with a leading [.*]. *)
Lemma search_trailing_star (w : string) (c : ascii) (s : string) :
  re_search (trailing_star w c) s = true <-> contains w s.
Proof.
  rewrite <- (search_literal_star w c). rewrite !re_search_spec.
  unfold trailing_star. split.
  - intros [a [m [b [-> Hm]]]].
    inversion Hm as [| | | | ? ? p t _ Ht | | | |]; subst.
    exists (a ++ p)%string, t, b. split; [|exact Ht].
    now rewrite !append_assoc.
  - intros [a [m [b [-> Hm]]]]. exists a, m, b. split; [reflexivity|].
    change m with (EmptyString ++ m)%string. constructor; [constructor | exact Hm].
Qed.

(** What the five removal patterns look for. *)
Lemma removal_pattern_contains (l : label) :
  matches_removal_pattern l = true <->
  contains "challeng" (label_str l) \/ contains "Pin" (label_str l) \/
  contains "rio" (label_str l) \/ contains "nexu" (label_str l) \/
  contains "gameEnde" (label_str l).
Proof.
  unfold matches_removal_pattern, regexes. cbn [existsb].
  rewrite !orb_true_iff, !search_trailing_star. intuition discriminate.
Qed.

(* ================================================================== *)
(** * Shard decoding *)
(* ================================================================== *)

Lemma mapM_pure {A B : Type} (f : A -> res B) (g : A -> B) (l : list A) :
  (forall x, In x l -> f x = Ok (g x)) -> mapM f l = Ok (map g l).
Proof.
  induction l as [|a l IH]; intros H; [reflexivity|].
  cbn [mapM map]. rewrite (H a (or_introl eq_refl)). cbn [bind].
  rewrite IH; [reflexivity|]. intros x Hx. apply H. now right.
Qed.

Lemma translations_get_int (n : Z) :
  translations_get (PInt n) = Ok (shard_name (PInt n)).
Proof.
  destruct n as [|p|p]; try reflexivity.
  do 13 (destruct p as [p|p|]; try reflexivity).
Qed.

Lemma translations_get_hashable (v : pyobj) :
  hashable v = true -> translations_get v = Ok (shard_name v).
Proof.
  destruct v as [|b|n|s|l|d]; cbn [hashable]; try discriminate; intros _.
  - reflexivity.
  - now destruct b.
  - apply translations_get_int.
  - reflexivity.
Qed.

Lemma label_mem_filtered (data : DataFrame) (re : regex) (c : label * Series) :
  In c (cols data) ->
  label_mem (fst c) (columns (filter_regex data re)) =
  re_search re (label_str (fst c)).
Proof.
  intros Hc. destruct (re_search re (label_str (fst c))) eqn:E.
  - apply label_mem_In. unfold columns, filter_regex. cbn [cols].
    apply in_map_iff. exists c. split; [reflexivity|]. apply filter_In. now split.
  - apply label_mem_false. intros Hin. unfold columns, filter_regex in Hin.
    cbn [cols] in Hin. apply in_map_iff in Hin. destruct Hin as [c' [Hl Hc']].
    apply filter_In in Hc'. destruct Hc' as [_ Hs]. rewrite Hl in Hs. congruence.
Qed.




Lemma get_runes_conforming_witness :
  exists out,
    get_runes sample_batch = Ok out /\
    getitem (rename_shard_columns out) (LStr "runeShardFlex") =
    Ok [PInt 5008; PInt 5008].
Proof.
  destruct (@get_runes_conforming sample_batch [good_tree; good_tree]
              [PInt 5002; PInt 5002] [PInt 5008; PInt 5008]
              [PInt 5005; PInt 5005]) as [out H].
  - vm_compute. reflexivity.
  - discriminate.
  - vm_compute. reflexivity.
  - vm_compute. reflexivity.
  - vm_compute. reflexivity.
  - vm_compute. reflexivity.
  - vm_compute. reflexivity.
  - intros l Hl. apply label_mem_false. cbn in Hl.
    repeat (destruct Hl as [<-|Hl]; [vm_compute; reflexivity|]). contradiction.
  - exists out. tauto.
Defined.

(* ================================================================== *)
(** * Assembling the batch *)
(* ================================================================== *)

Lemma str_mem_app (k : string) (a b : list string) :
  str_mem k (a ++ b) = str_mem k a || str_mem k b.
Proof. unfold str_mem. apply existsb_app. Qed.

Lemma str_mem_filter (k : string) (f : string -> bool) (l : list string) :
  str_mem k (filter f l) = f k && str_mem k l.
Proof.
  induction l as [|a l IH]; cbn [filter]; [now rewrite andb_false_r|].
  unfold str_mem in *. destruct (f a) eqn:Fa; cbn [existsb]; rewrite IH.
  - destruct (String.eqb_spec k a) as [->|]; [now rewrite Fa | now rewrite orb_false_l].
  - destruct (String.eqb_spec k a) as [->|]; [now rewrite Fa | now rewrite orb_false_l].
Qed.

(** One step of the key union, seen from an earlier set of keys. *)
Lemma add_unique_after (seen acc : list string) (k : string) :
  add_unique (seen ++ filter (fun x => negb (str_mem x seen)) acc) k =
  seen ++ filter (fun x => negb (str_mem x seen)) (add_unique acc k).
Proof.
  unfold add_unique. rewrite str_mem_app, str_mem_filter.
  destruct (str_mem k seen) eqn:Hs; cbn [negb andb orb].
  - destruct (str_mem k acc); [reflexivity|].
    rewrite filter_app. cbn [filter]. rewrite Hs. cbn [negb]. now rewrite app_nil_r.
  - destruct (str_mem k acc); [reflexivity|].
    rewrite filter_app. cbn [filter]. rewrite Hs. cbn [negb]. now rewrite app_assoc.
Qed.

Lemma fold_add_unique_after (ks seen acc : list string) :
  fold_left add_unique ks (seen ++ filter (fun x => negb (str_mem x seen)) acc) =
  seen ++ filter (fun x => negb (str_mem x seen)) (fold_left add_unique ks acc).
Proof.
  revert acc. induction ks as [|k ks IH]; intros acc; cbn [fold_left]; [reflexivity|].
  now rewrite add_unique_after, IH.
Qed.

Lemma unique_keys_snoc (ds : list dict) (d : dict) :
  unique_keys (ds ++ [d]) =
  unique_keys ds ++
  filter (fun x => negb (str_mem x (unique_keys ds))) (unique_keys [d]).
Proof.
  unfold unique_keys. rewrite fold_left_app. cbn [fold_left].
  rewrite <- fold_add_unique_after. cbn [filter]. now rewrite app_nil_r.
Qed.

Lemma label_mem_LStr (k : string) (ks : list string) :
  label_mem (LStr k) (map LStr ks) = str_mem k ks.
Proof.
  unfold label_mem, str_mem. induction ks as [|a ks IH]; [reflexivity|].
  cbn [map existsb label_eqb]. now rewrite IH.
Qed.

Lemma filter_map_LStr (seen ks : list string) :
  filter (fun l => negb (label_mem l (map LStr seen))) (map LStr ks) =
  map LStr (filter (fun x => negb (str_mem x seen)) ks).
Proof.
  induction ks as [|k ks IH]; [reflexivity|].
  cbn [map filter]. rewrite label_mem_LStr, IH. now destruct (str_mem k seen).
Qed.

Lemma columns_from_records (ds : list dict) :
  columns (from_records ds) = map LStr (unique_keys ds).
Proof. unfold columns, from_records. cbn [cols]. now rewrite map_map. Qed.

Lemma dict_get_default_absent (k : string) (d : dict) :
  ~ In k (dict_keys d) -> dict_get_default k d = PNull.
Proof.
  intros H. unfold dict_get_default.
  destruct (dict_get k d) eqn:E; [|reflexivity].
  exfalso. apply H, has_key_In. unfold has_key. now rewrite E.
Qed.

(** A frame of records has, in any column name at all, the projection of
    the records on that key. *)
Lemma column_or_nulls_records (ds : list dict) (k : string) :
  column_or_nulls (from_records ds) (LStr k) = map (dict_get_default k) ds.
Proof.
  unfold column_or_nulls, from_records. cbn [cols nrows]. rewrite find_col_keys.
  destruct (str_mem k (unique_keys ds)) eqn:E; [reflexivity|].
  assert (H : forall d, In d ds -> dict_get_default k d = PNull).
  { intros d Hd. apply dict_get_default_absent. intros Hk.
    assert (Hin : In k (unique_keys ds)) by (apply in_unique_keys; eauto).
    apply str_mem_In in Hin. congruence. }
  clear E. induction ds as [|d ds IH]; [reflexivity|].
  cbn [length repeat map]. rewrite (H d (or_introl eq_refl)). f_equal.
  apply IH. intros d' Hd'. apply H. now right.
Qed.

(** Appending one record as a one-row frame is building the frame from
    all records at once. *)
Lemma concat_rows_from_records (ds : list dict) (d : dict) :
  concat_rows (from_records ds) (from_records [d]) = from_records (ds ++ [d]).
Proof.
  unfold concat_rows. rewrite !columns_from_records.
  unfold union_labels. rewrite filter_map_LStr, <- map_app, <- unique_keys_snoc.
  change (from_records (ds ++ [d]))
    with (mkFrame (length (ds ++ [d]))
            (map (fun k => (LStr k, map (dict_get_default k) (ds ++ [d])))
                 (unique_keys (ds ++ [d])))).
  f_equal.
  - cbn [nrows from_records length]. rewrite length_app. reflexivity.
  - rewrite map_map. apply map_ext. intros k.
    now rewrite !column_or_nulls_records, map_app.
Qed.

Lemma json_normalize_dict (d : dict) :
  json_normalize [PDict d] = Ok (from_records [normalise_json_ordered d]).
Proof. reflexivity. Qed.

(** The loop of [collect_data] builds the frame of the flattened
    participant records. *)
Lemma collect_rows_records (watcher : LolWatcher) (region : string)
    (puuid : pyobj) (match_ids : list string) (ds : list dict) :
  collect_rows watcher region puuid match_ids (from_records ds) =
  players <- players_of watcher region puuid match_ids ;;
  Ok (from_records (ds ++ map normalise_json_ordered players)).
Proof.
  revert ds. induction match_ids as [|match_id rest IH]; intros ds.
  - cbn [collect_rows players_of bind map]. now rewrite app_nil_r.
  - cbn [collect_rows players_of].
    destruct (get_match_from_id watcher region match_id) as [m|e]; [|reflexivity].
    cbn [bind]. destruct (get_player_index puuid m) as [i|e]; [|reflexivity].
    cbn [bind]. destruct (get_player_from_index m i) as [player|e]; [|reflexivity].
    cbn [bind]. rewrite json_normalize_dict. cbn [bind].
    rewrite concat_rows_from_records, IH.
    destruct (players_of watcher region puuid rest) as [ps|e]; [|reflexivity].
    cbn [bind map]. now rewrite <- app_assoc.
Qed.

Lemma players_of_length (watcher : LolWatcher) (region : string)
    (puuid : pyobj) (match_ids : list string) (players : list dict) :
  players_of watcher region puuid match_ids = Ok players ->
  length players = length match_ids.
Proof.
  revert players. induction match_ids as [|match_id rest IH]; intros players.
  - cbn. intros H. now injection H as <-.
  - cbn [players_of].
    destruct (get_match_from_id watcher region match_id) as [m|e]; [|discriminate].
    cbn [bind]. destruct (get_player_index puuid m) as [i|e]; [|discriminate].
    cbn [bind]. destruct (get_player_from_index m i) as [player|e]; [|discriminate].
    cbn [bind]. destruct (players_of watcher region puuid rest) as [ps|e]; [|discriminate].
    cbn [bind]. intros H. injection H as <-. cbn [length]. f_equal. now apply IH.
Qed.

(** ** Column lengths *)

Lemma bind_ok {A B : Type} (m : res A) (k : A -> res B) (b : B) :
  bind m k = Ok b -> exists a, m = Ok a /\ k a = Ok b.
Proof. destruct m as [a|e]; cbn [bind]; [eauto | discriminate]. Qed.

Lemma mapM_length {A B : Type} (f : A -> res B) (l : list A) (ys : list B) :
  mapM f l = Ok ys -> length ys = length l.
Proof.
  revert ys. induction l as [|a l IH]; intros ys; cbn [mapM].
  - intros H. now injection H as <-.
  - intros H. apply bind_ok in H. destruct H as [b [_ H]].
    apply bind_ok in H. destruct H as [bs [Hbs H]]. injection H as <-.
    cbn [length]. f_equal. now apply IH.
Qed.

Lemma lengths_from_records (ds : list dict) : lengths_ok (from_records ds).
Proof.
  intros c Hc. unfold from_records in Hc. cbn [cols] in Hc.
  apply in_map_iff in Hc. destruct Hc as [k [<- _]]. cbn [snd nrows from_records].
  apply length_map.
Qed.

Lemma lengths_from_lists (rows : list (list pyobj)) : lengths_ok (from_lists rows).
Proof.
  intros c Hc. unfold from_lists in Hc. cbn [cols] in Hc.
  apply in_map_iff in Hc. destruct Hc as [k [<- _]]. cbn [snd nrows from_lists].
  apply length_map.
Qed.

Lemma frame_of_list_shape (l : list pyobj) (f : DataFrame) :
  frame_of_list l = Ok f -> nrows f = length l /\ lengths_ok f.
Proof.
  destruct l as [|v l]; cbn [frame_of_list].
  - intros H. injection H as <-. split; [reflexivity|]. intros c [].
  - destruct v; try discriminate; intros H; apply bind_ok in H;
      destruct H as [rows [Hrows H]]; injection H as <-;
      apply mapM_length in Hrows; (split; [exact Hrows|]).
    + apply lengths_from_lists.
    + apply lengths_from_records.
Qed.

Lemma json_normalize_shape (s : Series) (f : DataFrame) :
  json_normalize s = Ok f -> nrows f = length s /\ lengths_ok f.
Proof.
  unfold json_normalize. intros H. apply frame_of_list_shape in H.
  now rewrite length_map in H.
Qed.

Lemma getitem_length (df : DataFrame) (l : label) (s : Series) :
  lengths_ok df -> getitem df l = Ok s -> length s = nrows df.
Proof. intros Hok H. apply getitem_In in H. exact (Hok _ H). Qed.

Lemma perk_column_length (frame : DataFrame) (i : nat) (s : Series) :
  lengths_ok frame -> perk_column frame i = Ok s -> length s = nrows frame.
Proof.
  intros Hok H. unfold perk_column in H.
  apply bind_ok in H. destruct H as [c [Hc H]].
  apply bind_ok in H. destruct H as [f [Hf H]].
  apply json_normalize_shape in Hf. destruct Hf as [Hn Hf].
  rewrite (@getitem_length _ _ _ Hf H), Hn. now apply (@getitem_length _ _ _ Hok Hc).
Qed.

Lemma selections_frame_shape (perks : DataFrame) (i : nat) (f : DataFrame) :
  lengths_ok perks -> selections_frame perks i = Ok f ->
  nrows f = nrows perks /\ lengths_ok f.
Proof.
  intros Hok H. unfold selections_frame in H.
  apply bind_ok in H. destruct H as [c [Hc H]].
  apply bind_ok in H. destruct H as [g [Hg H]].
  apply bind_ok in H. destruct H as [sels [Hsels H]].
  apply json_normalize_shape in Hg. destruct Hg as [Hn Hg].
  apply json_normalize_shape in H. destruct H as [Hm Hf].
  split; [|exact Hf].
  rewrite Hm, (@getitem_length _ _ _ Hg Hsels), Hn. now apply (@getitem_length _ _ _ Hok Hc).
Qed.

Lemma fold_max_const (n : nat) (ls : list nat) :
  ls <> [] -> (forall x, In x ls -> x = n) -> fold_left Nat.max ls 0%nat = n.
Proof.
  intros Hne H.
  assert (G : forall acc, fold_left Nat.max ls acc = Nat.max acc n).
  { revert Hne H. induction ls as [|x ls IH]; intros Hne H acc; [congruence|].
    cbn [fold_left]. rewrite (H x (or_introl eq_refl)).
    destruct ls as [|y ls]; [reflexivity|].
    rewrite IH; [lia | discriminate | intros z Hz; apply H; now right]. }
  rewrite G. lia.
Qed.

Lemma concat_series_exact (n : nat) (named : list (label * Series)) :
  named <> [] -> (forall c, In c named -> length (snd c) = n) ->
  concat_series named = mkFrame n named.
Proof.
  intros Hne H. unfold concat_series.
  rewrite (@fold_max_const n).
  - f_equal. now apply pad_cols_exact.
  - destruct named; [congruence | discriminate].
  - intros x Hx. apply in_map_iff in Hx. destruct Hx as [c [<- Hc]]. now apply H.
Qed.

Lemma concat_columns_exact (data : DataFrame) (runes : list (label * Series)) :
  lengths_ok data ->
  (forall c, In c runes -> length (snd c) = nrows data) ->
  concat_columns data (mkFrame (nrows data) runes) =
  mkFrame (nrows data) (cols data ++ runes).
Proof.
  intros Hok H. unfold concat_columns. cbn [nrows cols]. rewrite Nat.max_id.
  f_equal. apply pad_cols_exact. intros c Hc. apply in_app_or in Hc.
  destruct Hc; auto.
Qed.

(** Whenever [get_runes] returns, it has appended six full columns named
    by [rune_names] and changed nothing else. *)
Lemma get_runes_inv (data out : DataFrame) :
  lengths_ok data -> get_runes data = Ok out ->
  exists runes,
    out = mkFrame (nrows data) (cols data ++ runes) /\
    map fst runes = rune_names /\
    (forall c, In c runes -> length (snd c) = nrows data).
Proof.
  intros Hok H. unfold get_runes in H.
  apply bind_ok in H. destruct H as [styles [Hstyles H]].
  apply bind_ok in H. destruct H as [perks [Hperks H]].
  apply bind_ok in H. destruct H as [primary [Hprimary H]].
  apply bind_ok in H. destruct H as [k0 [Hk0 H]].
  apply bind_ok in H. destruct H as [k1 [Hk1 H]].
  apply bind_ok in H. destruct H as [k2 [Hk2 H]].
  apply bind_ok in H. destruct H as [k3 [Hk3 H]].
  apply bind_ok in H. destruct H as [secondary [Hsecondary H]].
  apply bind_ok in H. destruct H as [s0 [Hs0 H]].
  apply bind_ok in H. destruct H as [s1 [Hs1 H]].
  injection H as <-.
  apply json_normalize_shape in Hperks. destruct Hperks as [Hn Hperks].
  rewrite (@getitem_length _ _ _ Hok Hstyles) in Hn.
  destruct (@selections_frame_shape _ _ _ Hperks Hprimary) as [Hn1 Hp].
  destruct (@selections_frame_shape _ _ _ Hperks Hsecondary) as [Hn2 Hs].
  apply (@perk_column_length _ _ _ Hp) in Hk0, Hk1, Hk2, Hk3.
  apply (@perk_column_length _ _ _ Hs) in Hs0, Hs1.
  rewrite Hn1, Hn in Hk0, Hk1, Hk2, Hk3. rewrite Hn2, Hn in Hs0, Hs1.
  exists [(LStr "runeKeystone", k0); (LStr "runePrimary1", k1);
          (LStr "runePrimary2", k2); (LStr "runePrimary3", k3);
          (LStr "runeSecondary1", s0); (LStr "runeSecondary2", s1)].
  split; [|split; [reflexivity|]].
  - rewrite (@concat_series_exact (nrows data)).
    + now apply concat_columns_exact; [|
        intros c Hc; cbn [In] in Hc;
        repeat (destruct Hc as [<-|Hc]; [assumption|]); contradiction].
    + discriminate.
    + intros c Hc. cbn [In] in Hc.
      repeat (destruct Hc as [<-|Hc]; [assumption|]). contradiction.
  - intros c Hc. cbn [In] in Hc.
    repeat (destruct Hc as [<-|Hc]; [assumption|]). contradiction.
Qed.

(** ** The normalized batch *)



Lemma lengths_rename (data : DataFrame) :
  lengths_ok data -> lengths_ok (rename_shard_columns data).
Proof.
  intros H c Hc. unfold rename_shard_columns, rename_columns in Hc. cbn [cols] in Hc.
  apply in_map_iff in Hc. destruct Hc as [c' [<- Hc']]. cbn [snd nrows].
  now apply H.
Qed.








(* ================================================================== *)
(** * Locating the player *)
(* ================================================================== *)

Lemma list_index_first (x : string) (l : list string) (i : nat) :
  list_index x l = Some i ->
  nth_error l i = Some x /\ forall j, (j < i)%nat -> nth_error l j <> Some x.
Proof.
  revert i. induction l as [|y l IH]; intros i; cbn [list_index]; [discriminate|].
  destruct (String.eqb_spec x y) as [->|Hne].
  - intros H. injection H as <-. split; [reflexivity|]. intros j Hj. lia.
  - destruct (list_index x l) as [k|]; [|discriminate].
    intros H. injection H as <-. destruct (IH k eq_refl) as [Hk Hfirst].
    split; [exact Hk|]. intros [|j] Hj; cbn [nth_error].
    + intros E. injection E as ->. now apply Hne.
    + apply Hfirst. lia.
Qed.

Lemma list_index_absent (x : string) (l : list string) :
  list_index x l = None <-> ~ In x l.
Proof.
  induction l as [|y l IH]; cbn [list_index In]; [tauto|].
  destruct (String.eqb_spec x y) as [->|Hne].
  - split; [discriminate | intros H; exfalso; apply H; now left].
  - destruct (list_index x l) as [k|].
    + split; [discriminate|]. intros H. exfalso.
      assert (Hl : ~ In x l) by tauto. apply IH in Hl. discriminate.
    + split; [|reflexivity]. intros _ [E|Hin]; [congruence|].
      now apply (proj1 IH).
Qed.

(** X1: in a fetched match the player is looked up by the first position
    of the puuid among the participant ids, and the record returned is the
    one at that position of the participant data; an absent puuid raises
    [ValueError] and a position past the end of the data [IndexError]. *)
Theorem player_of_match_first (watcher : LolWatcher) (region : string)
    (p match_id : string) (m : MatchDto) :
  match_by_id watcher region match_id = Ok m ->
  (~ In p (metadata_participants m) ->
   player_of_match watcher region (PStr p) match_id = Raise ValueError) /\
  (In p (metadata_participants m) ->
   exists i,
     get_player_index (PStr p) m = Ok i /\
     nth_error (metadata_participants m) i = Some p /\
     (forall j, (j < i)%nat -> nth_error (metadata_participants m) j <> Some p) /\
     (forall player, nth_error (info_participants m) i = Some player ->
        player_of_match watcher region (PStr p) match_id = Ok player) /\
     ((length (info_participants m) <= i)%nat ->
        player_of_match watcher region (PStr p) match_id = Raise IndexError)).
Proof.
  intros Hm. unfold player_of_match, get_match_from_id. rewrite Hm. cbn [bind].
  unfold get_player_index. split.
  - intros Hnot. apply list_index_absent in Hnot. now rewrite Hnot.
  - intros Hin. destruct (list_index p (metadata_participants m)) as [i|] eqn:E.
    + exists i. destruct (list_index_first _ _ E) as [Hi Hfirst].
      split; [reflexivity|]. split; [exact Hi|]. split; [exact Hfirst|].
      cbn [bind]. unfold get_player_from_index. split.
      * intros player Hp. now rewrite Hp.
      * intros Hlen. apply nth_error_None in Hlen. now rewrite Hlen.
    + apply list_index_absent in E. contradiction.
Qed.

Lemma player_of_match_first_witness :
  player_of_match sample_watcher "NA1" (PStr "p-1") "NA1_1" =
  Ok (participant 3 good_tree []).
Proof.
  destruct (@player_of_match_first sample_watcher "NA1" "p-1" "NA1_1"
              (sample_match (participant 3 good_tree [])) eq_refl)
    as [_ H].
  destruct H as [i [Hi [_ [_ [Hplayer _]]]]]; [cbn; tauto|].
  vm_compute in Hi. injection Hi as <-. now apply Hplayer.
Defined.

(* ================================================================== *)
(** * The collecting loop *)
(* ================================================================== *)

Lemma players_of_cons (watcher : LolWatcher) (region : string) (puuid : pyobj)
    (match_id : string) (rest : list string) :
  players_of watcher region puuid (match_id :: rest) =
  player <- player_of_match watcher region puuid match_id ;;
  players <- players_of watcher region puuid rest ;;
  Ok (player :: players).
Proof.
  cbn [players_of]. unfold player_of_match.
  destruct (get_match_from_id watcher region match_id) as [m|e]; [|reflexivity].
  cbn [bind]. destruct (get_player_index puuid m) as [i|e]; reflexivity.
Qed.

Lemma players_of_app_fail (watcher : LolWatcher) (region : string)
    (puuid : pyobj) (before : list string) (match_id : string)
    (after : list string) (ps : list dict) (e : exn) :
  players_of watcher region puuid before = Ok ps ->
  player_of_match watcher region puuid match_id = Raise e ->
  players_of watcher region puuid (before ++ match_id :: after) = Raise e.
Proof.
  revert ps. induction before as [|b before IH]; intros ps Hps Hfail.
  - cbn [app]. rewrite players_of_cons, Hfail. reflexivity.
  - cbn [app]. rewrite players_of_cons in *.
    destruct (player_of_match watcher region puuid b) as [pb|eb]; [|discriminate].
    cbn [bind] in *.
    destruct (players_of watcher region puuid before) as [ps'|e'] eqn:E;
      [|discriminate].
    now rewrite (IH ps' eq_refl Hfail).
Qed.

(** X2: one match that cannot be fetched, or in which the player cannot
    be found, aborts the whole batch: [collect_data] raises the error of
    the first such match, whatever the matches before and after it
    yield. *)
Theorem collect_data_aborts (watcher : LolWatcher) (region : string)
    (puuid : pyobj) (before : list string) (match_id : string)
    (after : list string) (ps : list dict) (e : exn) :
  players_of watcher region puuid before = Ok ps ->
  player_of_match watcher region puuid match_id = Raise e ->
  collect_data watcher region (before ++ match_id :: after) puuid = Raise e.
Proof.
  intros Hps Hfail. unfold collect_data.
  change empty_frame with (from_records []).
  rewrite collect_rows_records.
  now rewrite (@players_of_app_fail _ _ _ _ _ _ _ _ Hps Hfail).
Qed.

Lemma collect_data_aborts_witness :
  collect_data sample_watcher "NA1" ["NA1_1"; "NA1_9"; "NA1_2"] (PStr "p-1") =
  Raise (ApiError 404).
Proof.
  apply (@collect_data_aborts sample_watcher "NA1" (PStr "p-1")
           ["NA1_1"] "NA1_9" ["NA1_2"] [participant 3 good_tree []]).
  - reflexivity.
  - reflexivity.
Defined.




(* ================================================================== *)
(** * Sorting the columns *)
(* ================================================================== *)

Lemma label_leb_le (a b : label) (le : bool) :
  label_leb a b = Ok le -> label_le a b = le.
Proof.
  destruct a, b; cbn [label_leb label_le]; intros H; try discriminate;
    now injection H.
Qed.

Lemma label_le_total (a b : label) :
  label_leb a b = Ok false -> label_le b a = true.
Proof.
  destruct a as [s|n], b as [t|m]; cbn [label_leb label_le]; intros H;
    try discriminate; injection H as H.
  - destruct (String.leb_total s t) as [E|E]; congruence.
  - apply Nat.leb_le. apply Nat.leb_gt in H. lia.
Qed.

Lemma insert_col_sorted (c : label * Series) (sorted r : list (label * Series)) :
  insert_col c sorted = Ok r ->
  ascending (map fst sorted) = true ->
  Permutation r (c :: sorted) /\
  ascending (map fst r) = true /\
  (exists t, r = c :: t \/ exists h t', sorted = h :: t' /\ r = h :: t).
Proof.
  revert r. induction sorted as [|c' rest IH]; intros r; cbn [insert_col].
  - intros H _. injection H as <-. split; [apply Permutation_refl|].
    split; [reflexivity|]. exists []. now left.
  - intros H Hasc. apply bind_ok in H. destruct H as [le [Hle H]].
    destruct le.
    + injection H as <-. split; [apply Permutation_refl|]. split.
      * cbn [map ascending fst] in *. rewrite (@label_leb_le _ _ _ Hle). exact Hasc.
      * exists (c' :: rest). now left.
    + apply bind_ok in H. destruct H as [r' [Hr' H]]. injection H as <-.
      assert (Hrest : ascending (map fst rest) = true).
      { cbn [map ascending] in Hasc. destruct (map fst rest) eqn:E; [reflexivity|].
        apply andb_true_iff in Hasc. tauto. }
      destruct (IH r' Hr' Hrest) as [Hperm [Hasc' [t Hhead]]].
      split.
      * apply Permutation_trans with (c' :: c :: rest);
          [now apply perm_skip | apply perm_swap].
      * split; [|exists r'; right; eauto].
        destruct Hhead as [->|[h [t' [-> ->]]]]; cbn [map ascending fst] in *.
        -- rewrite (@label_le_total _ _ Hle). exact Hasc'.
        -- apply andb_true_iff in Hasc. destruct Hasc as [Hh _].
           rewrite Hh. exact Hasc'.
Qed.

Lemma sort_cols_sorted (cs r : list (label * Series)) :
  sort_cols cs = Ok r ->
  Permutation r cs /\ ascending (map fst r) = true.
Proof.
  revert r. induction cs as [|c cs IH]; intros r; cbn [sort_cols].
  - intros H. injection H as <-. split; [constructor | reflexivity].
  - intros H. apply bind_ok in H. destruct H as [s [Hs H]].
    destruct (IH s Hs) as [Hperm Hasc].
    destruct (insert_col_sorted _ _ H Hasc) as [Hperm' [Hasc' _]].
    split; [|exact Hasc'].
    apply Permutation_trans with (c :: s); [exact Hperm' | now apply perm_skip].
Qed.

Lemma insert_col_strings (c : label * Series) (sorted : list (label * Series)) :
  string_labels (map fst (c :: sorted)) = true ->
  exists r, insert_col c sorted = Ok r.
Proof.
  induction sorted as [|c' rest IH]; cbn [insert_col]; [eauto|].
  intros H. cbn [map string_labels forallb fst] in *.
  destruct c as [[a|] sa]; [|discriminate].
  destruct c' as [[b|] sb]; [|cbn in H; discriminate].
  cbn [fst label_leb bind]. destruct (String.leb a b); [eauto|].
  destruct IH as [r Hr]; [cbn [fst]; cbn [andb] in *; exact H|].
  rewrite Hr. cbn [bind]. eauto.
Qed.

Lemma string_labels_perm (a b : list (label * Series)) :
  Permutation a b ->
  string_labels (map fst a) = true -> string_labels (map fst b) = true.
Proof.
  intros Hperm H. unfold string_labels in *. rewrite forallb_forall in *.
  intros l Hl. apply H. apply in_map_iff in Hl. destruct Hl as [c [<- Hc]].
  apply in_map. apply Permutation_in with (l := b); [|exact Hc].
  now apply Permutation_sym.
Qed.

Lemma sort_cols_strings (cs : list (label * Series)) :
  string_labels (map fst cs) = true -> exists r, sort_cols cs = Ok r.
Proof.
  induction cs as [|c cs IH]; cbn [sort_cols]; [eauto|].
  intros H. destruct IH as [s Hs].
  { cbn [map string_labels forallb] in H. apply andb_true_iff in H. tauto. }
  rewrite Hs. cbn [bind]. apply insert_col_strings.
  destruct (sort_cols_sorted _ Hs) as [Hperm _].
  cbn [map string_labels forallb] in *. apply andb_true_iff in H.
  destruct H as [Hc Hcs]. rewrite Hc. cbn [andb].
  apply (string_labels_perm (Permutation_sym Hperm)). exact Hcs.
Qed.

(** X4: whenever [sort_data] returns, the result has the columns of its
    input, each with its cells, rearranged so that neighbouring names are
    in ascending order, and the same number of rows; it returns whenever
    all column names are strings. *)
Theorem sort_data_sorted (data : DataFrame) :
  (forall out, sort_data data = Ok out ->
     nrows out = nrows data /\
     Permutation (cols out) (cols data) /\
     ascending (columns out) = true) /\
  (string_labels (columns data) = true -> exists out, sort_data data = Ok out).
Proof.
  unfold sort_data, sort_index_columns. split.
  - intros out H. apply bind_ok in H. destruct H as [cs [Hcs H]].
    injection H as <-. destruct (sort_cols_sorted _ Hcs) as [Hperm Hasc].
    now repeat split.
  - intros H. destruct (sort_cols_strings _ H) as [r Hr]. rewrite Hr.
    cbn [bind]. eauto.
Qed.

Lemma sort_data_sorted_witness :
  sort_data (one_row [("kills", PInt 7); ("assists", PInt 3); ("item0", PInt 1001)])
  = Ok (one_row [("assists", PInt 3); ("item0", PInt 1001); ("kills", PInt 7)]).
Proof.
  destruct (proj2 (@sort_data_sorted
              (one_row [("kills", PInt 7); ("assists", PInt 3);
                        ("item0", PInt 1001)])) eq_refl) as [out Hout].
  rewrite Hout. vm_compute in Hout. injection Hout as <-. reflexivity.
Defined.

(* ================================================================== *)
(** * Removing columns by pattern *)
(* ================================================================== *)

Lemma filter_ext_in {A : Type} (f g : A -> bool) (l : list A) :
  (forall x, In x l -> f x = g x) -> filter f l = filter g l.
Proof.
  induction l as [|a l IH]; intros H; [reflexivity|]. cbn [filter].
  rewrite (H a (or_introl eq_refl)), IH; [reflexivity|].
  intros x Hx. apply H. now right.
Qed.

Lemma drop_filtered (data : DataFrame) (re : regex) :
  drop_columns data (columns (filter_regex data re)) =
  Ok (mkFrame (nrows data)
        (filter (fun c => negb (re_search re (label_str (fst c)))) (cols data))).
Proof.
  unfold drop_columns. rewrite filter_nil.
  - do 2 f_equal. apply filter_ext_in. intros c Hc.
    now rewrite (@label_mem_filtered _ _ _ Hc).
  - intros l Hl. apply columns_filter_regex_incl in Hl.
    apply label_mem_In in Hl. now rewrite Hl.
Qed.

(** X5: [filter_data] never fails, and the frame it returns is its input
    without the columns whose name the pattern is found in: the other
    columns stay, in order and with their cells.  For a pattern of the
    five used, no column whose name contains the literal is left. *)
Theorem filter_data_removes (data : DataFrame) (re : regex) :
  exists out,
    filter_data data re = Ok out /\
    nrows out = nrows data /\
    cols out =
      filter (fun c => negb (re_search re (label_str (fst c)))) (cols data) /\
    (forall l, In l (columns out) -> re_search re (label_str l) = false) /\
    (forall lit c, re = trailing_star lit c ->
       forall l, In l (columns out) -> ~ contains lit (label_str l)).
Proof.
  unfold filter_data. rewrite drop_filtered. cbn [bind]. eexists.
  split; [reflexivity|]. split; [reflexivity|]. split; [reflexivity|].
  assert (H : forall l,
             In l (columns (mkFrame (nrows data)
                      (filter (fun c => negb (re_search re (label_str (fst c))))
                              (cols data)))) ->
             re_search re (label_str l) = false).
  { intros l Hl. unfold columns in Hl. cbn [cols] in Hl.
    apply in_map_iff in Hl. destruct Hl as [c [<- Hc]].
    apply filter_In in Hc. now apply negb_true_iff. }
  split; [exact H|].
  intros lit c -> l Hl Hcontains. apply search_trailing_star with (c := c) in Hcontains.
  rewrite (H l Hl) in Hcontains. discriminate.
Qed.

(* ================================================================== *)
(** * Renaming *)
(* ================================================================== *)






(* ================================================================== *)
(** * Decoding through the resolver *)
(* ================================================================== *)

Lemma mapM_Forall2 {A B : Type} (f : A -> res B) (l : list A) (ys : list B) :
  mapM f l = Ok ys -> Forall2 (fun x y => f x = Ok y) l ys.
Proof.
  revert ys. induction l as [|a l IH]; intros ys; cbn [mapM].
  - intros H. injection H as <-. constructor.
  - intros H. apply bind_ok in H. destruct H as [b [Hb H]].
    apply bind_ok in H. destruct H as [bs [Hbs H]]. injection H as <-.
    constructor; auto.
Qed.

Lemma mapM_fails {A B : Type} (f : A -> res B) (l : list A) (x : A) :
  In x l -> (exists e, f x = Raise e) -> exists e', mapM f l = Raise e'.
Proof.
  induction l as [|a l IH]; [contradiction|]. intros [->|Hin] [e Hx]; cbn [mapM].
  - rewrite Hx. cbn [bind]. eauto.
  - destruct (f a) as [b|e0]; cbn [bind]; [|eauto].
    destruct IH as [e' ->]; [exact Hin | eauto |]. cbn [bind]. eauto.
Qed.

Lemma applymap_selected (data : DataFrame) (re : regex)
    (f : pyobj -> res pyobj) (g : pyobj -> pyobj) :
  (forall c v, In c (cols data) -> re_search re (label_str (fst c)) = true ->
               In v (snd c) -> f v = Ok (g v)) ->
  applymap_on data (columns (filter_regex data re)) f =
  Ok (map_selected (fun l => re_search re (label_str l)) g data).
Proof.
  intros H. unfold applymap_on, map_selected.
  rewrite (@mapM_pure _ _ _
             (fun c : label * Series =>
                if re_search re (label_str (fst c))
                then (fst c, map g (snd c)) else c)).
  - reflexivity.
  - intros c Hc. rewrite (@label_mem_filtered _ _ _ Hc).
    specialize (H c). unfold Series in *.
    destruct (re_search re (label_str (fst c))); [|reflexivity].
    rewrite (@mapM_pure _ _ f g); [reflexivity|].
    intros v Hv. now apply H.
Qed.

Lemma applymap_fails (data : DataFrame) (re : regex) (f : pyobj -> res pyobj)
    (c : label * Series) (v : pyobj) (e : exn) :
  In c (cols data) -> re_search re (label_str (fst c)) = true ->
  In v (snd c) -> f v = Raise e ->
  exists e', applymap_on data (columns (filter_regex data re)) f = Raise e'.
Proof.
  intros Hc Hsel Hv Hf. unfold applymap_on.
  match goal with
  | |- context [mapM ?F (cols data)] =>
      destruct (@mapM_fails _ _ F (cols data) c Hc) as [e' He']
  end.
  - cbv beta. rewrite (@label_mem_filtered _ _ _ Hc), Hsel.
    destruct (@mapM_fails _ _ f (snd c) v Hv) as [e0 He0]; [eauto|].
    unfold Series in *. rewrite He0. cbn [bind]. eauto.
  - rewrite He'. cbn [bind]. eauto.
Qed.







(** X8: a lookup that raises is not turned into a null: when the
    resolver raises for one cell of a column that a decoder picks, the
    decoder raises, and the frame is not returned. *)
Theorem decoders_abort (lit_get_name : pyobj -> string -> res pyobj)
    (data : DataFrame) (c : label * Series) (v : pyobj) (e : exn) :
  In c (cols data) -> In v (snd c) ->
  (re_search item_regex (label_str (fst c)) = true ->
   lit_get_name v "item" = Raise e ->
   exists e', decode_items lit_get_name data = Raise e') /\
  (re_search spell_regex (label_str (fst c)) = true ->
   lit_get_name v "summoner_spell" = Raise e ->
   exists e', decode_summoner_spells lit_get_name data = Raise e') /\
  (re_search rune_regex (label_str (fst c)) = true ->
   lit_get_name v "rune" = Raise e ->
   exists e', decode_runes lit_get_name data = Raise e').
Proof.
  intros Hc Hv. split; [|split]; intros Hsel Hf.
  - apply (@applymap_fails data item_regex
             (fun item => lit_get_name item "item") c v e Hc Hsel Hv Hf).
  - apply (@applymap_fails data spell_regex
             (fun spell => lit_get_name spell "summoner_spell") c v e Hc Hsel Hv Hf).
  - apply (@applymap_fails data rune_regex
             (fun rune => lit_get_name rune "rune") c v e Hc Hsel Hv Hf).
Qed.

Lemma decoders_abort_witness :
  exists e',
    decode_items sample_get_name
      (one_row [("item0", PInt 1001); ("item1", PInt 0)]) = Raise e'.
Proof.
  refine (proj1 (@decoders_abort sample_get_name
            (one_row [("item0", PInt 1001); ("item1", PInt 0)])
            (LStr "item1", [PInt 0]) (PInt 0) (KeyError []) _ _) _ _).
  - cbn. tauto.
  - cbn. tauto.
  - reflexivity.
  - reflexivity.
Defined.

(* ================================================================== *)
(** * Filtering and decoding together *)
(* ================================================================== *)

Lemma applymap_inv (data out : DataFrame) (labels : list label)
    (f : pyobj -> res pyobj) :
  applymap_on data labels f = Ok out ->
  nrows out = nrows data /\
  columns out = columns data /\
  (forall c, In c (cols data) -> label_mem (fst c) labels = false ->
             In c (cols out)).
Proof.
  unfold applymap_on. intros H. apply bind_ok in H. destruct H as [cs [Hcs H]].
  injection H as <-. cbn [nrows cols]. split; [reflexivity|].
  apply mapM_Forall2 in Hcs. unfold columns. cbn [cols].
  induction Hcs as [|c c' cs0 cs' Hc Hrest IH]; [split; [reflexivity | intros c []]|].
  destruct IH as [IHcols IHin]. cbn [map]. cbv beta in Hc.
  unfold Series in *. split.
  - f_equal; [|exact IHcols].
    destruct (label_mem (fst c) labels).
    + apply bind_ok in Hc. destruct Hc as [s [_ Hc]]. now injection Hc as <-.
    + now injection Hc as <-.
  - intros x [<-|Hx] Hsel.
    + rewrite Hsel in Hc. injection Hc as <-. now left.
    + right. now apply IHin.
Qed.

Lemma selected_in (data : DataFrame) (re : regex) (c : label * Series) :
  re_search re (label_str (fst c)) = false ->
  label_mem (fst c) (columns (filter_regex data re)) = false.
Proof.
  intros H. apply label_mem_false. intros Hin. unfold columns, filter_regex in Hin.
  cbn [cols] in Hin. apply in_map_iff in Hin. destruct Hin as [c' [E Hc']].
  apply filter_In in Hc'. destruct Hc' as [_ Hs]. rewrite E in Hs. congruence.
Qed.

Lemma map_fst_filter (p : label -> bool) (cs : list (label * Series)) :
  map fst (filter (fun c => p (fst c)) cs) = filter p (map fst cs).
Proof.
  induction cs as [|c cs IH]; [reflexivity|].
  cbn [map filter fst]. destruct (p (fst c)); cbn [map]; now rewrite IH.
Qed.

Lemma filter_and_decode_data_inv
    (lit_get_name : pyobj -> string -> res pyobj) (data out : DataFrame) :
  filter_and_decode_data lit_get_name data = Ok out ->
  has_deny_list data = true /\
  nrows out = nrows data /\
  columns out = filter (fun l => negb (label_mem l deny_list)) (columns data) /\
  (forall c, In c (cols data) ->
     label_mem (fst c) deny_list = false ->
     re_search item_regex (label_str (fst c)) = false ->
     re_search spell_regex (label_str (fst c)) = false ->
     re_search rune_regex (label_str (fst c)) = false ->
     shard_column (fst c) = false ->
     In c (cols out)).
Proof.
  unfold filter_and_decode_data. rewrite remove_unnecessary_info_drop.
  intros H.
  apply bind_ok in H. destruct H as [d0 [H0 H]].
  apply bind_ok in H. destruct H as [d1 [H1 H]].
  apply bind_ok in H. destruct H as [d2 [H2 H]].
  apply bind_ok in H. destruct H as [d3 [H3 H]].
  apply bind_ok in H. destruct H as [d4 [H4 H]]. injection H as <-.
  apply applymap_inv in H1, H2, H3, H4.
  destruct H1 as [N1 [C1 K1]], H2 as [N2 [C2 K2]],
           H3 as [N3 [C3 K3]], H4 as [N4 [C4 K4]].
  apply drop_columns_ok in H0. destruct H0 as [Hpresent ->].
  split.
  { apply forallb_forall. intros l Hl. apply label_mem_In. now apply Hpresent. }
  split; [now rewrite N4, N3, N2, N1|].
  split.
  { rewrite C4, C3, C2, C1. unfold columns. cbn [cols].
    apply (map_fst_filter (fun l => negb (label_mem l deny_list))). }
  intros c Hc Hdeny Hitem Hspell Hrune Hshard.
  apply K4; [|now apply selected_in].
  apply K3; [|now apply selected_in].
  apply K2; [|now apply selected_in].
  apply K1; [|now apply selected_in].
  cbn [cols]. apply filter_In. split; [exact Hc|]. now rewrite Hdeny.
Qed.



Lemma decode_shards_eq (data : DataFrame) :
  (forall c, In c (cols data) -> shard_column (fst c) = true ->
             forallb hashable (snd c) = true) ->
  decode_shards data = Ok (map_selected shard_column shard_name data).
Proof.
  intros Hhash. unfold decode_shards.
  apply (@applymap_selected data shard_regex translations_get shard_name).
  intros c v Hc Hsel Hv. apply translations_get_hashable.
  specialize (Hhash c Hc Hsel). rewrite forallb_forall in Hhash. now apply Hhash.
Qed.

Lemma shard_name_hashable (v : pyobj) : hashable (shard_name v) = true.
Proof.
  destruct v as [|b|n|s|l|d]; try reflexivity.
  destruct n as [|p|p]; try reflexivity.
  do 13 (destruct p as [p|p|]; try reflexivity).
Qed.

Lemma shard_name_twice (v : pyobj) : shard_name (shard_name v) = PNull.
Proof.
  destruct v as [|b|n|s|l|d]; try reflexivity.
  destruct n as [|p|p]; try reflexivity.
  do 13 (destruct p as [p|p|]; try reflexivity).
Qed.

(** X10: [decode_shards] is not to be run twice: it translates ids, and
    a name is no id.  On a frame whose shard cells are hashable a second
    pass succeeds and leaves null in every cell of every shard column;
    the other columns are still as they were. *)
Theorem decode_shards_twice (data : DataFrame) :
  (forall c, In c (cols data) -> shard_column (fst c) = true ->
             forallb hashable (snd c) = true) ->
  exists once,
    decode_shards data = Ok once /\
    decode_shards once = Ok (map_selected shard_column (fun _ => PNull) data).
Proof.
  intros Hhash. exists (map_selected shard_column shard_name data).
  split; [now apply decode_shards_eq|].
  rewrite decode_shards_eq.
  - unfold map_selected. cbn [nrows cols]. do 2 f_equal. rewrite map_map.
    apply map_ext. intros c. destruct (shard_column (fst c)) eqn:E; cbn [fst snd].
    + rewrite E. f_equal. rewrite map_map. apply map_ext. intros v.
      apply shard_name_twice.
    + now rewrite E.
  - intros c Hc Hsel. unfold map_selected in Hc. cbn [cols] in Hc.
    apply in_map_iff in Hc. destruct Hc as [c0 [<- Hc0]].
    unfold Series in *.
    destruct (shard_column (fst c0)) eqn:E; cbn [fst snd] in *.
    + apply forallb_forall. intros v Hv. apply in_map_iff in Hv.
      destruct Hv as [v0 [<- _]]. apply shard_name_hashable.
    + congruence.
Qed.

Lemma decode_shards_twice_witness :
  exists once,
    decode_shards sharp_frame = Ok once /\
    decode_shards once =
    Ok (one_row [("kills", PInt 5001); ("runeShardDefense", PNull);
                 ("runeShardFlex", PNull); ("runeShardOffense", PNull);
                 ("runeSharpness", PNull)]).
Proof.
  apply (@decode_shards_twice sharp_frame).
  intros c Hc _. cbn in Hc.
  repeat (destruct Hc as [<-|Hc]; [reflexivity|]). contradiction.
Defined.

(* ------------------------------------------------------------------ *)
(** ** The whole run *)

Lemma writes_once_bind (A B : Type) (m : IO A) (k : A -> IO B) (w : world) :
  quiet m -> (forall a, writes_once w (k a w)) ->
  writes_once w (iobind m k w).
Proof.
  intros Hm Hk. unfold iobind. destruct (Hm w) as [Hfiles Hok].
  destruct (m w) as [w1 [a | e]]; cbn [fst snd] in *.
  - rewrite (Hok a eq_refl). apply Hk.
  - unfold writes_once. cbn [fst snd]. exact Hfiles.
Qed.

Lemma quiet_lift (A : Type) (r : res A) : quiet (lift r).
Proof. intros w. unfold lift. cbn [fst snd]. now split. Qed.

Lemma quiet_ret (A : Type) (a : A) : quiet (ret a).
Proof. intros w. unfold ret. cbn [fst snd]. now split. Qed.

Lemma quiet_check_user_input (argv : list string) :
  quiet (check_user_input argv).
Proof.
  intros w. unfold check_user_input.
  destruct (negb _).
  - cbv [iobind print sys_exit raise fst snd files]. split; [reflexivity|].
    intros a H. discriminate H.
  - apply quiet_ret.
Qed.

Lemma quiet_get_region (str_upper str_strip : string -> string)
    (set_order : list string -> list string) (region : string) :
  quiet (get_region str_upper str_strip set_order region).
Proof.
  intros w. unfold get_region.
  destruct (str_mem _ valid_regions).
  - apply quiet_ret.
  - cbv [iobind print sys_exit raise fst snd files]. split; [reflexivity|].
    intros a H. discriminate H.
Qed.

Lemma quiet_get_summoner (watcher : LolWatcher) (region name : string) :
  quiet (get_summoner watcher region name).
Proof.
  intros w. unfold get_summoner.
  destruct (summoner_by_name watcher region name) as [s | e].
  - cbv [iobind ret fst snd]. now split.
  - destruct e as [| | | | | | status_code |];
      try (cbv [iobind raise fst snd]; split;
           [reflexivity | intros a H; discriminate H]).
    destruct (status_code =? 404)%Z;
      cbv [iobind print sys_exit raise ret fst snd files]; split;
      try reflexivity; intros a H; discriminate H.
Qed.

Lemma writes_once_save (py_format : pyobj -> string) (time_str : string)
    (data : DataFrame) (summoner : dict) (w : world) :
  writes_once w (save_data_to_pickle time_str py_format data summoner w).
Proof.
  unfold save_data_to_pickle, writes_once, iobind, lift, to_pickle.
  destruct (subscript summoner "name"); cbn [fst snd stdout files].
  - split; [reflexivity|]. now eexists _, _.
  - reflexivity.
Qed.

(** X11: whatever the arguments, the API answers and the name resolver,
    a run of [main] that returns has printed nothing and added exactly one
    file, and a run that raises (wrong arguments, unknown region, failed
    request, missing column, failed lookup) has written no file at all. *)
Theorem main_writes_once
    (lit_get_name : pyobj -> string -> res pyobj)
    (str_upper str_strip : string -> string)
    (set_order : list string -> list string)
    (time_str : string) (py_format : pyobj -> string)
    (lol_watcher : LolWatcher) (argv : list string) (w : world) :
  writes_once w
    (main lit_get_name str_upper str_strip set_order time_str py_format
          lol_watcher argv w).
Proof.
  unfold main.
  apply writes_once_bind; [apply quiet_check_user_input | intros _].
  apply writes_once_bind; [apply quiet_lift | intros arg1].
  apply writes_once_bind; [apply quiet_get_region | intros region].
  apply writes_once_bind; [apply quiet_lift | intros arg2].
  apply writes_once_bind; [apply quiet_get_summoner | intros summoner].
  apply writes_once_bind; [apply quiet_lift | intros puuid].
  apply writes_once_bind; [apply quiet_lift | intros match_ids].
  apply writes_once_bind; [apply quiet_lift | intros d0].
  apply writes_once_bind; [apply quiet_ret | intros d1].
  apply writes_once_bind; [apply quiet_lift | intros d2].
  apply writes_once_bind; [apply quiet_lift | intros d3].
  apply writes_once_save.
Qed.

(** X12: with any number of arguments other than two after the program
    name, [main] prints the four usage lines and exits with status 2,
    and writes no file. *)
Theorem main_wrong_argument_count
    (lit_get_name : pyobj -> string -> res pyobj)
    (str_upper str_strip : string -> string)
    (set_order : list string -> list string)
    (time_str : string) (py_format : pyobj -> string)
    (lol_watcher : LolWatcher) (argv : list string) (w : world) :
  length argv <> 3 ->
  main lit_get_name str_upper str_strip set_order time_str py_format
       lol_watcher argv w =
  (mkWorld (stdout w ++ usage_lines) (files w), Raise (SystemExit 2)).
Proof.
  intros Hlen. unfold main, check_user_input.
  apply Nat.eqb_neq in Hlen. rewrite Hlen. cbn [negb].
  cbv [iobind print sys_exit raise stdout files usage_lines].
  repeat rewrite <- app_assoc. reflexivity.
Qed.

Lemma main_wrong_argument_count_witness :
  main echo_name upper strip (fun l => l) "20230101-120000" (fun _ => "Zenith")
       sample_watcher ["collect_ranked_stats.py"; "NA1"] (mkWorld [] []) =
  (mkWorld usage_lines [], Raise (SystemExit 2)).
Proof.
  apply (@main_wrong_argument_count echo_name upper strip (fun l => l)
           "20230101-120000" (fun _ => "Zenith") sample_watcher
           ["collect_ranked_stats.py"; "NA1"] (mkWorld [] [])).
  cbn [length]. lia.
Defined.

(** X13: with two arguments and a valid region, when the API answers the
    summoner request with status 404, [main] prints the one line naming
    the player and exits with status 2, and no file is written. *)
Theorem main_player_not_found
    (lit_get_name : pyobj -> string -> res pyobj)
    (str_upper str_strip : string -> string)
    (set_order : list string -> list string)
    (time_str : string) (py_format : pyobj -> string)
    (lol_watcher : LolWatcher) (prog region name : string) (w : world) :
  str_mem (str_strip (str_upper region)) valid_regions = true ->
  summoner_by_name lol_watcher region name = Raise (ApiError 404) ->
  main lit_get_name str_upper str_strip set_order time_str py_format
       lol_watcher [prog; region; name] w =
  (mkWorld (stdout w ++ [not_found_line name]) (files w),
   Raise (SystemExit 2)).
Proof.
  intros Hregion Hapi. unfold main, check_user_input, get_region, get_summoner.
  cbn [length Nat.eqb negb argv_at nth_error].
  cbv [iobind ret lift]. rewrite Hregion, Hapi.
  cbn [Z.eqb Pos.eqb]. reflexivity.
Qed.

Lemma main_player_not_found_witness :
  main echo_name upper strip (fun l => l) "20230101-120000" (fun _ => "Zenith")
       stranger_watcher ["collect_ranked_stats.py"; "na1"; "Nobody"]
       (mkWorld [] []) =
  (mkWorld [not_found_line "Nobody"] [], Raise (SystemExit 2)).
Proof.
  apply (@main_player_not_found echo_name upper strip (fun l => l)
           "20230101-120000" (fun _ => "Zenith") stranger_watcher
           "collect_ranked_stats.py" "na1" "Nobody" (mkWorld [] []));
    reflexivity.
Defined.

Lemma iobind_quiet_ok (A B : Type) (m : IO A) (k : A -> IO B)
    (w w' : world) (b : B) :
  quiet m -> iobind m k w = (w', Ok b) ->
  exists a, m w = (w, Ok a) /\ k a w = (w', Ok b).
Proof.
  intros Hm. unfold iobind. destruct (Hm w) as [_ Hok].
  destruct (m w) as [w1 [a | e]]; cbn [fst snd] in *; [|discriminate].
  rewrite (Hok a eq_refl). intros H. now exists a.
Qed.

Lemma lift_ok (A : Type) (r : res A) (w w' : world) (a : A) :
  lift r w = (w', Ok a) -> r = Ok a.
Proof. unfold lift. intros H. now injection H. Qed.

Lemma check_user_input_ok (argv : list string) (w w' : world) (u : unit) :
  check_user_input argv w = (w', Ok u) ->
  exists prog region name, argv = [prog; region; name].
Proof.
  unfold check_user_input.
  destruct argv as [| a0 [| a1 [| a2 [| a3 rest]]]]; cbn [length Nat.eqb negb];
    cbv [iobind print sys_exit raise]; try discriminate.
  intros _. now exists a0, a1, a2.
Qed.

Lemma get_region_ok (str_upper str_strip : string -> string)
    (set_order : list string -> list string) (region r : string)
    (w w' : world) :
  get_region str_upper str_strip set_order region w = (w', Ok r) ->
  r = region /\ str_mem (str_strip (str_upper region)) valid_regions = true.
Proof.
  unfold get_region.
  destruct (str_mem (str_strip (str_upper region)) valid_regions).
  - unfold ret. intros H. injection H as _ <-. now split.
  - cbv [iobind print sys_exit raise]. discriminate.
Qed.

Lemma get_summoner_ok (watcher : LolWatcher) (region name : string)
    (w w' : world) (s : dict) :
  get_summoner watcher region name w = (w', Ok s) ->
  summoner_by_name watcher region name = Ok s.
Proof.
  unfold get_summoner.
  destruct (summoner_by_name watcher region name) as [s' | e].
  - cbv [iobind ret]. intros H. now injection H as _ <-.
  - destruct e as [| | | | | | status_code |];
      try (cbv [iobind raise]; discriminate).
    destruct (status_code =? 404)%Z;
      cbv [iobind print sys_exit raise ret]; discriminate.
Qed.

Lemma subscript_ok (d : dict) (k : string) (v : pyobj) :
  subscript d k = Ok v -> dict_get k d = Some v.
Proof.
  unfold subscript. destruct (dict_get k d); [|discriminate].
  intros H. now injection H as <-.
Qed.

Lemma rune_names_kept (l : label) :
  In l rune_names ->
  rename_label new_names l = l /\ label_mem l deny_list = false.
Proof.
  intros H. cbn in H.
  repeat (destruct H as [<- | H]; [now split|]). contradiction.
Qed.

(** X14: a run of [main] that returns was given two arguments, a valid
    region and a player the API knows.  It has printed nothing and added
    one file, named after the [name] field of the summoner record and the
    time; the frame in it has one row per match id the API listed, its
    columns in ascending order of their names, none of the deny-listed
    columns, and the six rune columns. *)
Theorem main_returns
    (lit_get_name : pyobj -> string -> res pyobj)
    (str_upper str_strip : string -> string)
    (set_order : list string -> list string)
    (time_str : string) (py_format : pyobj -> string)
    (lol_watcher : LolWatcher) (argv : list string) (w w' : world) :
  main lit_get_name str_upper str_strip set_order time_str py_format
       lol_watcher argv w = (w', Ok tt) ->
  exists prog region name summoner player puuid match_ids data,
    argv = [prog; region; name] /\
    str_mem (str_strip (str_upper region)) valid_regions = true /\
    summoner_by_name lol_watcher region name = Ok summoner /\
    dict_get "name" summoner = Some player /\
    dict_get "puuid" summoner = Some puuid /\
    match_matchlist_by_puuid lol_watcher region puuid 420 = Ok match_ids /\
    w' = mkWorld (stdout w)
           (files w ++ [(pickle_name py_format time_str player, data)]) /\
    nrows data = length match_ids /\
    ascending (columns data) = true /\
    (forall l, In l deny_list -> ~ In l (columns data)) /\
    (forall l, In l rune_names -> In l (columns data)).
Proof.
  unfold main. intros H.
  apply iobind_quiet_ok in H; [|apply quiet_check_user_input].
  destruct H as [u [Hargv H]].
  apply check_user_input_ok in Hargv. destruct Hargv as [prog [a1 [a2 ->]]].
  apply iobind_quiet_ok in H; [|apply quiet_lift].
  destruct H as [arg1 [Harg1 H]]. apply lift_ok in Harg1.
  cbn [argv_at nth_error] in Harg1. injection Harg1 as <-.
  apply iobind_quiet_ok in H; [|apply quiet_get_region].
  destruct H as [region [Hregion H]]. apply get_region_ok in Hregion.
  destruct Hregion as [-> Hvalid].
  apply iobind_quiet_ok in H; [|apply quiet_lift].
  destruct H as [arg2 [Harg2 H]]. apply lift_ok in Harg2.
  cbn [argv_at nth_error] in Harg2. injection Harg2 as <-.
  apply iobind_quiet_ok in H; [|apply quiet_get_summoner].
  destruct H as [summoner [Hsummoner H]]. apply get_summoner_ok in Hsummoner.
  apply iobind_quiet_ok in H; [|apply quiet_lift].
  destruct H as [puuid [Hpuuid H]]. apply lift_ok in Hpuuid.
  apply subscript_ok in Hpuuid.
  apply iobind_quiet_ok in H; [|apply quiet_lift].
  destruct H as [match_ids [Hids H]]. apply lift_ok in Hids.
  apply iobind_quiet_ok in H; [|apply quiet_lift].
  destruct H as [d0 [Hd0 H]]. apply lift_ok in Hd0.
  apply iobind_quiet_ok in H; [|apply quiet_ret].
  destruct H as [d1 [Hd1 H]]. unfold ret in Hd1. injection Hd1 as <-.
  apply iobind_quiet_ok in H; [|apply quiet_lift].
  destruct H as [d2 [Hd2 H]]. apply lift_ok in Hd2.
  apply iobind_quiet_ok in H; [|apply quiet_lift].
  destruct H as [d3 [Hd3 H]]. apply lift_ok in Hd3.
  unfold save_data_to_pickle in H.
  apply iobind_quiet_ok in H; [|apply quiet_lift].
  destruct H as [player [Hname H]]. apply lift_ok in Hname.
  apply subscript_ok in Hname.
  unfold to_pickle in H. injection H as <-.
  (* the frame *)
  unfold collect_data in Hd0.
  apply bind_ok in Hd0. destruct Hd0 as [raw [Hraw Hrunes]].
  change empty_frame with (from_records []) in Hraw.
  rewrite collect_rows_records in Hraw.
  apply bind_ok in Hraw. destruct Hraw as [players [Hplayers Hraw]].
  cbn [app] in Hraw. injection Hraw as <-.
  apply get_runes_inv in Hrunes; [|apply lengths_from_records].
  destruct Hrunes as [runes [-> [Hnames _]]].
  apply players_of_length in Hplayers.
  apply filter_and_decode_data_inv in Hd2.
  destruct Hd2 as [_ [Hrows [Hcols _]]].
  unfold sort_data, sort_index_columns in Hd3.
  apply bind_ok in Hd3. destruct Hd3 as [cs [Hsort Hd3]]. injection Hd3 as <-.
  apply sort_cols_sorted in Hsort. destruct Hsort as [Hperm Hasc].
  assert (Hiff : forall l, In l (map fst cs) <-> In l (columns d2)).
  { intros l. unfold columns. split; apply Permutation_in;
      [apply Permutation_map, Hperm
      | apply Permutation_map, Permutation_sym, Hperm]. }
  exists prog, a1, a2, summoner, player, puuid, match_ids,
         (mkFrame (nrows d2) cs).
  repeat (split; [assumption || reflexivity|]).
  split.
  { cbn [nrows]. rewrite Hrows. cbn [nrows from_records rename_shard_columns
      rename_columns]. now rewrite length_map. }
  split; [exact Hasc|].
  unfold columns at 1 2. cbn [cols]. split.
  - intros l Hdeny Hin. apply Hiff in Hin. rewrite Hcols in Hin.
    apply filter_In in Hin. destruct Hin as [_ Hin].
    apply label_mem_In in Hdeny. now rewrite Hdeny in Hin.
  - intros l Hl. apply Hiff. rewrite Hcols. apply filter_In.
    destruct (@rune_names_kept l Hl) as [Hfix Hkeep]. split.
    + rewrite columns_rename. apply in_map_iff. exists l. split; [exact Hfix|].
      unfold columns. cbn [cols]. rewrite map_app, Hnames.
      apply in_or_app. now right.
    + now rewrite Hkeep.
Qed.

Lemma main_returns_witness :
  exists w',
    main echo_name upper strip (fun l => l) "20230101-120000"
         (fun _ => "Zenith") sample_watcher
         ["collect_ranked_stats.py"; "NA1"; "Zenith"] (mkWorld [] []) =
    (w', Ok tt) /\
    exists data,
      w' = mkWorld [] [("Zenith_ranked_stats_20230101-120000.pickle", data)] /\
      nrows data = 2 /\
      ascending (columns data) = true.
Proof.
  destruct (main echo_name upper strip (fun l => l) "20230101-120000"
              (fun _ => "Zenith") sample_watcher
              ["collect_ranked_stats.py"; "NA1"; "Zenith"] (mkWorld [] []))
    as [w' r] eqn:Hrun.
  assert (Hr : r = Ok tt).
  { apply (f_equal snd) in Hrun. cbn [snd] in Hrun. rewrite <- Hrun.
    vm_compute. reflexivity. }
  subst r. exists w'. split; [reflexivity|].
  destruct (@main_returns echo_name upper strip (fun l => l) "20230101-120000"
              (fun _ => "Zenith") sample_watcher
              ["collect_ranked_stats.py"; "NA1"; "Zenith"] (mkWorld [] []) w'
              Hrun)
    as [prog [region [name [summoner [player [puuid [match_ids [data
        [Hargv [_ [Hsummoner [_ [Hpuuid [Hids [Hw [Hrows [Hasc _]]]]]]]]]]]]]]]]].
  injection Hargv as _ <- <-.
  cbn [sample_watcher summoner_by_name match_matchlist_by_puuid] in *.
  injection Hids as <-.
  exists data. split; [exact Hw|]. split; [exact Hrows | exact Hasc].
Defined.

(* ------------------------------------------------------------------ *)
(** ** Rune unpacking on any batch *)

(** X15: on a frame whose columns are as long as its index, whenever
    [get_runes] returns, whatever the style trees hold, the frame had a
    ['perks.styles'] column, the result has the same rows, every input
    column where it was with the cells it had, and after them exactly the
    six rune columns, each as long as the index. *)
Theorem get_runes_appends (data out : DataFrame) :
  lengths_ok data ->
  get_runes data = Ok out ->
  In (LStr "perks.styles") (columns data) /\
  nrows out = nrows data /\
  lengths_ok out /\
  exists runes,
    cols out = cols data ++ runes /\ map fst runes = rune_names.
Proof.
  intros Hlen Hrun. split.
  { unfold get_runes in Hrun. apply bind_ok in Hrun.
    destruct Hrun as [styles [Hget _]]. apply getitem_In in Hget.
    unfold columns. apply in_map_iff. now exists (LStr "perks.styles", styles). }
  destruct (@get_runes_inv data out Hlen Hrun) as [runes [-> [Hnames Hrunes]]].
  cbn [nrows cols]. split; [reflexivity|]. split.
  - intros c Hc. cbn [nrows cols] in *. apply in_app_or in Hc.
    destruct Hc as [Hc | Hc]; [now apply Hlen | now apply Hrunes].
  - now exists runes.
Qed.

Lemma get_runes_appends_witness :
  exists out,
    get_runes sample_batch = Ok out /\
    nrows out = 2%nat /\
    columns out = columns sample_batch ++ rune_names.
Proof.
  destruct (get_runes sample_batch) as [out | e] eqn:Hrun;
    [|exfalso; vm_compute in Hrun; discriminate Hrun].
  exists out. split; [reflexivity|].
  destruct (@get_runes_appends sample_batch out
              (lengths_from_records _) Hrun)
    as [_ [Hrows [_ [runes [Hcols Hnames]]]]].
  split; [exact Hrows|].
  unfold columns. now rewrite Hcols, map_app, Hnames.
Defined.

(* ------------------------------------------------------------------ *)
(** ** champions.py *)

Lemma filter_filter (A : Type) (f g : A -> bool) (l : list A) :
  filter g (filter f l) = filter (fun x => f x && g x) l.
Proof.
  induction l as [|x l IH]; cbn [filter]; [reflexivity|].
  destruct (f x); cbn [filter andb]; [|exact IH].
  destruct (g x); now rewrite IH.
Qed.

Lemma legacy_filter_all (res_list : list regex) (data : DataFrame) :
  Champions.filter_all data res_list =
  Ok (mkFrame (nrows data)
        (filter (fun c => negb (existsb (fun re => re_search re (label_str (fst c)))
                                        res_list))
                (cols data))).
Proof.
  revert data. induction res_list as [|re rest IH]; intros data.
  - cbn [Champions.filter_all existsb negb].
    destruct data as [n cs]. cbn [nrows cols]. f_equal. f_equal.
    induction cs as [|c cs IHcs]; cbn [filter]; [reflexivity | now f_equal].
  - cbn [Champions.filter_all]. unfold Champions.filter_data.
    rewrite drop_filtered. cbn [bind fst]. rewrite IH. cbn [nrows cols].
    rewrite filter_filter. do 2 f_equal. apply filter_ext_in.
    intros c _. cbn [existsb]. now rewrite negb_orb.
Qed.

(** X16: in [champions.py], where [filter_data] drops in place,
    [remove_unnecessary_info] on a frame holding its sixteen deny-listed
    columns returns the frame without them and without every column whose
    name a removal pattern is found in; the other columns keep their order
    and cells, so no column left has [challeng], [Pin], [rio], [nexu] or
    [gameEnde] in its name.  When a deny-listed column is absent it raises
    the [KeyError] naming the absent ones. *)
Theorem legacy_remove_unnecessary_info (data : DataFrame) :
  (forallb (fun l => label_mem l (columns data)) Champions.deny_list = true ->
   exists out,
     Champions.remove_unnecessary_info data = Ok out /\
     nrows out = nrows data /\
     cols out =
       filter (fun c => negb (label_mem (fst c) Champions.deny_list)
                        && negb (matches_removal_pattern (fst c)))
              (cols data) /\
     (forall l, In l (columns out) ->
        ~ contains "challeng" (label_str l) /\ ~ contains "Pin" (label_str l) /\
        ~ contains "rio" (label_str l) /\ ~ contains "nexu" (label_str l) /\
        ~ contains "gameEnde" (label_str l))) /\
  (forallb (fun l => label_mem l (columns data)) Champions.deny_list = false ->
   Champions.remove_unnecessary_info data =
   Raise (KeyError (filter (fun l => negb (label_mem l (columns data)))
                           Champions.deny_list))).
Proof.
  split; intros Hdeny; unfold Champions.remove_unnecessary_info.
  - rewrite (drop_columns_present _ _ Hdeny). cbn [bind].
    rewrite legacy_filter_all. cbn [bind nrows cols]. rewrite filter_filter.
    eexists. split; [reflexivity|]. cbn [nrows cols].
    split; [reflexivity|]. split; [reflexivity|].
    intros l Hl. unfold columns in Hl. cbn [cols] in Hl.
    apply in_map_iff in Hl. destruct Hl as [c [<- Hc]].
    apply filter_In in Hc. destruct Hc as [_ Hc].
    apply andb_true_iff in Hc. destruct Hc as [_ Hc].
    apply negb_true_iff in Hc.
    change (matches_removal_pattern (fst c) = false) in Hc.
    assert (Hno : ~ (matches_removal_pattern (fst c) = true))
      by (now rewrite Hc).
    rewrite removal_pattern_contains in Hno. tauto.
  - now rewrite (drop_columns_absent _ _ Hdeny).
Qed.

Lemma legacy_remove_unnecessary_info_witness :
  Champions.remove_unnecessary_info noisy_frame =
  Ok (one_row [("perks.styles", PInt 0); ("kills", PInt 7)]).
Proof.
  destruct (proj1 (legacy_remove_unnecessary_info noisy_frame) eq_refl)
    as [out [Hrun [Hrows [Hcols _]]]].
  rewrite Hrun. f_equal. destruct out as [n cs]. cbn [nrows cols] in *.
  subst n cs. vm_compute. reflexivity.
Defined.

Lemma styles_kept :
  label_mem (LStr "perks.styles") Champions.deny_list = false /\
  matches_removal_pattern (LStr "perks.styles") = false.
Proof. split; vm_compute; reflexivity. Qed.

Lemma legacy_filter_and_decode_data_inv
    (lit_get_name : pyobj -> string -> res pyobj) (data out : DataFrame) :
  Champions.filter_and_decode_data lit_get_name data = Ok out ->
  In (LStr "perks.styles") (columns data) /\
  In (LStr "perks.styles") (columns out) /\
  nrows out = nrows data /\
  columns out =
    filter (fun l => negb (label_mem l Champions.deny_list)
                     && negb (matches_removal_pattern l))
           (columns data).
Proof.
  intros H. unfold Champions.filter_and_decode_data in H.
  apply bind_ok in H. destruct H as [styles [Hget H]].
  apply bind_ok in H. destruct H as [normalized [_ H]].
  apply bind_ok in H. destruct H as [d1 [H1 H]].
  apply bind_ok in H. destruct H as [d2 [H2 H]].
  apply bind_ok in H. destruct H as [d3 [H3 H]]. injection H as <-.
  apply applymap_inv in H2, H3.
  destruct H2 as [N2 [C2 _]], H3 as [N3 [C3 _]].
  unfold Champions.remove_unnecessary_info in H1.
  apply bind_ok in H1. destruct H1 as [d0 [H0 H1]].
  apply drop_columns_ok in H0. destruct H0 as [_ ->].
  rewrite legacy_filter_all in H1. cbn [bind nrows cols] in H1.
  injection H1 as <-. rewrite filter_filter in *.
  assert (Hstyles : In (LStr "perks.styles") (columns data)).
  { apply getitem_In in Hget. unfold columns. apply in_map_iff.
    now exists (LStr "perks.styles", styles). }
  assert (Hcols : columns d3 =
            filter (fun l => negb (label_mem l Champions.deny_list)
                             && negb (matches_removal_pattern l))
                   (columns data)).
  { rewrite C3, C2. unfold columns. cbn [cols].
    apply (map_fst_filter
             (fun l => negb (label_mem l Champions.deny_list)
                       && negb (matches_removal_pattern l))). }
  split; [exact Hstyles|]. split.
  - rewrite Hcols. apply filter_In. split; [exact Hstyles|].
    destruct styles_kept as [-> ->]. reflexivity.
  - split; [now rewrite N3, N2 | exact Hcols].
Qed.

(** X17: in [champions.py], whenever [filter_and_decode_data] returns, the
    frame had a ['perks.styles'] column and the result still has it: the
    result has the rows of the input and exactly its columns that are
    neither deny-listed nor matched by a removal pattern, in the same
    order.  Without a ['perks.styles'] column it raises the [KeyError] of
    that lookup, whatever else is missing. *)
Theorem legacy_filter_and_decode_data
    (lit_get_name : pyobj -> string -> res pyobj) (data : DataFrame) :
  (forall out, Champions.filter_and_decode_data lit_get_name data = Ok out ->
     In (LStr "perks.styles") (columns data) /\
     In (LStr "perks.styles") (columns out) /\
     nrows out = nrows data /\
     columns out =
       filter (fun l => negb (label_mem l Champions.deny_list)
                        && negb (matches_removal_pattern l))
              (columns data)) /\
  (~ In (LStr "perks.styles") (columns data) ->
   Champions.filter_and_decode_data lit_get_name data =
   Raise (KeyError [LStr "perks.styles"])).
Proof.
  split.
  - intros out. apply legacy_filter_and_decode_data_inv.
  - intros Habsent. unfold Champions.filter_and_decode_data, getitem.
    now rewrite (find_col_absent _ _ Habsent).
Qed.

Lemma legacy_filter_and_decode_data_witness :
  exists out,
    Champions.filter_and_decode_data echo_name sample_batch = Ok out /\
    In (LStr "perks.styles") (columns out) /\
    nrows out = 2%nat.
Proof.
  destruct (Champions.filter_and_decode_data echo_name sample_batch)
    as [out | e] eqn:Hrun;
    [|exfalso; vm_compute in Hrun; discriminate Hrun].
  exists out. split; [reflexivity|].
  destruct (proj1 (legacy_filter_and_decode_data echo_name sample_batch)
              out Hrun) as [_ [Hkept [Hrows _]]].
  split; [exact Hkept | exact Hrows].
Defined.

(** X18: a run of the [main] of [champions.py] that returns has printed
    nothing and added the one file [test.csv]; the frame in it has one row
    per match id the API listed for the player the code names, and still
    holds the ['perks.styles'] column.  A run that raises has written no
    file. *)
Theorem legacy_main_run
    (lit_get_name : pyobj -> string -> res pyobj)
    (str_upper str_strip : string -> string)
    (set_order : list string -> list string)
    (lol_watcher : LolWatcher) (w : world) :
  match Champions.main lit_get_name str_upper str_strip set_order
                       lol_watcher w with
  | (w', Ok _) =>
      exists summoner puuid match_ids data,
        summoner_by_name lol_watcher "NA1" "Zenîth" = Ok summoner /\
        dict_get "puuid" summoner = Some puuid /\
        match_matchlist_by_puuid lol_watcher "NA1" puuid 420 = Ok match_ids /\
        w' = mkWorld (stdout w) (files w ++ [("test.csv", data)]) /\
        nrows data = length match_ids /\
        In (LStr "perks.styles") (columns data)
  | (w', Raise _) => files w' = files w
  end.
Proof.
  destruct (Champions.main lit_get_name str_upper str_strip set_order
                           lol_watcher w) as [w' [u | e]] eqn:Hrun.
  - unfold Champions.main in Hrun.
    apply iobind_quiet_ok in Hrun; [|apply quiet_get_region].
    destruct Hrun as [region [Hregion H]]. apply get_region_ok in Hregion.
    destruct Hregion as [-> _].
    apply iobind_quiet_ok in H; [|apply quiet_get_summoner].
    destruct H as [summoner [Hsummoner H]]. apply get_summoner_ok in Hsummoner.
    apply iobind_quiet_ok in H; [|apply quiet_lift].
    destruct H as [puuid [Hpuuid H]]. apply lift_ok in Hpuuid.
    apply subscript_ok in Hpuuid.
    apply iobind_quiet_ok in H; [|apply quiet_lift].
    destruct H as [match_ids [Hids H]]. apply lift_ok in Hids.
    apply iobind_quiet_ok in H; [|apply quiet_lift].
    destruct H as [d0 [Hd0 H]]. apply lift_ok in Hd0.
    apply iobind_quiet_ok in H; [|apply quiet_lift].
    destruct H as [d1 [Hd1 H]]. apply lift_ok in Hd1.
    unfold Champions.to_csv, to_pickle in H. injection H as <-.
    unfold Champions.collect_data in Hd0.
    change empty_frame with (from_records []) in Hd0.
    rewrite collect_rows_records in Hd0.
    apply bind_ok in Hd0. destruct Hd0 as [players [Hplayers Hd0]].
    cbn [app] in Hd0. injection Hd0 as <-.
    apply players_of_length in Hplayers.
    apply legacy_filter_and_decode_data_inv in Hd1.
    destruct Hd1 as [_ [Hkept [Hrows _]]].
    exists summoner, puuid, match_ids, d1.
    repeat (split; [assumption || reflexivity|]).
    split; [|exact Hkept].
    rewrite Hrows. cbn [nrows from_records]. now rewrite length_map.
  - assert (Hw : writes_once w
             (Champions.main lit_get_name str_upper str_strip set_order
                             lol_watcher w)).
    { unfold Champions.main.
      apply writes_once_bind; [apply quiet_get_region | intros region].
      apply writes_once_bind; [apply quiet_get_summoner | intros summoner].
      apply writes_once_bind; [apply quiet_lift | intros puuid].
      apply writes_once_bind; [apply quiet_lift | intros match_ids].
      apply writes_once_bind; [apply quiet_lift | intros d0].
      apply writes_once_bind; [apply quiet_lift | intros d1].
      unfold Champions.to_csv, to_pickle, writes_once.
      cbn [fst snd stdout files]. split; [reflexivity|]. now eexists _, _. }
    rewrite Hrun in Hw. exact Hw.
Qed.
